(** * Head-controlled snake: gesture classifier, control bridge, game engine

    A shallow embedding of [gesture_recognition.py], [control_bridge.py] and
    [game_engine.py], with the properties the specification states about
    them.  Python objects are records, methods are functions from the object
    (and the arguments) to the result and the updated object. *)

From Stdlib Require Import ZArith Floats.
From stdpp Require Import gmap strings list.

Local Open Scope Z_scope.

(** ** Directions *)

(** The four strings 'UP', 'DOWN', 'LEFT', 'RIGHT'. *)
Inductive Direction := UP | DOWN | LEFT | RIGHT.

#[global] Instance Direction_eq_dec : EqDecision Direction.
Proof. solve_decision. Defined.

(** The dictionaries [opposite_map] (control_bridge.py) and [opposite]
    (game_engine.py); every direction is a key, so [.get] always finds one. *)
Definition opposite (d : Direction) : Direction :=
  match d with
  | UP => DOWN
  | DOWN => UP
  | LEFT => RIGHT
  | RIGHT => LEFT
  end.

(** A position is a tuple of two Python ints (vision.py builds them with
    [int(..)]); [None] is an absent sample. *)
Abbreviation Position := (Z * Z)%type.

(** A keypoint dictionary: landmark name to an optional position.  The
    dictionary itself may be [None]. *)
Abbreviation Keypoints := (gmap string (option Position)).

(** [keypoints.get(name)]: [None] for a missing key and for a key bound to
    [None]. *)
Definition kp_get (keypoints : Keypoints) (name : string) : option Position :=
  match keypoints !! name with
  | Some v => v
  | None => None
  end.

(** ** numpy arithmetic *)

(** [np.array] of a tuple of ints that fit 64 bits is an int64 array:
    subtraction and [abs] wrap around at 64 bits.  (Of larger Python ints
    numpy makes another kind of array; the detector's pixel coordinates are
    far from that, see [pixel].) *)
Definition int64 (z : Z) : Z := (z + 2 ^ 63) mod 2 ^ 64 - 2 ^ 63.

Definition np_sub (a b : Z) : Z := int64 (a - b).
Definition np_abs (a : Z) : Z := int64 (Z.abs a).

(** The part of numpy that works on float64: [np.sqrt] of an int, [np.mean]
    of a list of float64, and the comparison of a float64 with an int
    literal.  The thresholds of the gesture predicates are the only places
    where they are used. *)
Class Numpy := {
  float64 : Type;
  np_sqrt : Z -> float64;
  np_mean : list float64 -> float64;
  gt_int : float64 -> Z -> bool;
  lt_int : float64 -> Z -> bool
}.

(** ** gesture_recognition.py *)

Record GestureRecognition := {
  movement_threshold : Z;
  history_size : nat;
  position_history : list Position;   (* deque(maxlen=history_size), oldest first *)
  neutral_position : option Position;
  is_calibrated : bool;
  g_current_direction : option Direction;
  last_direction : option Direction;
  pause_cooldown : Z;
  boost_cooldown : Z
}.

Module Gesture.

(** [__init__(movement_threshold=30, history_size=10)] *)
Definition init (threshold : Z) (size : nat) : GestureRecognition :=
  {| movement_threshold := threshold;
     history_size := size;
     position_history := [];
     neutral_position := None;
     is_calibrated := false;
     g_current_direction := None;
     last_direction := None;
     pause_cooldown := 0;
     boost_cooldown := 0 |}.

Definition default : GestureRecognition := init 30 10.

Definition set_history (h : list Position) (g : GestureRecognition) :=
  {| movement_threshold := movement_threshold g;
     history_size := history_size g;
     position_history := h;
     neutral_position := neutral_position g;
     is_calibrated := is_calibrated g;
     g_current_direction := g_current_direction g;
     last_direction := last_direction g;
     pause_cooldown := pause_cooldown g;
     boost_cooldown := boost_cooldown g |}.

Definition set_cooldowns (p b : Z) (g : GestureRecognition) :=
  {| movement_threshold := movement_threshold g;
     history_size := history_size g;
     position_history := position_history g;
     neutral_position := neutral_position g;
     is_calibrated := is_calibrated g;
     g_current_direction := g_current_direction g;
     last_direction := last_direction g;
     pause_cooldown := p;
     boost_cooldown := b |}.

Definition set_directions (cur last : option Direction) (g : GestureRecognition) :=
  {| movement_threshold := movement_threshold g;
     history_size := history_size g;
     position_history := position_history g;
     neutral_position := neutral_position g;
     is_calibrated := is_calibrated g;
     g_current_direction := cur;
     last_direction := last;
     pause_cooldown := pause_cooldown g;
     boost_cooldown := boost_cooldown g |}.

(** [deque.append] on a deque with [maxlen]: the new sample goes to the
    right end and the oldest ones are dropped while the deque is too long. *)
Definition deque_append (maxlen : nat) (h : list Position) (p : Position) : list Position :=
  let h' := h ++ [p] in
  drop (length h' - maxlen)%nat h'.

(** [calibrate(head_position)] *)
Definition calibrate (g : GestureRecognition) (head_position : option Position) : GestureRecognition :=
  match head_position with
  | None => g
  | Some p =>
      {| movement_threshold := movement_threshold g;
         history_size := history_size g;
         position_history := deque_append (history_size g) [] p;
         neutral_position := Some p;
         is_calibrated := true;
         g_current_direction := g_current_direction g;
         last_direction := last_direction g;
         pause_cooldown := pause_cooldown g;
         boost_cooldown := boost_cooldown g |}
  end.

(** [update(head_position, keypoints)] *)
Definition update (g : GestureRecognition) (head_position : option Position)
    (keypoints : option Keypoints) : GestureRecognition :=
  match head_position with
  | None => g
  | Some p =>
      let g1 := set_history (deque_append (history_size g) (position_history g) p) g in
      let pc := if 0 <? pause_cooldown g1 then pause_cooldown g1 - 1 else pause_cooldown g1 in
      let bc := if 0 <? boost_cooldown g1 then boost_cooldown g1 - 1 else boost_cooldown g1 in
      set_cooldowns pc bc g1
  end.

(** [get_direction(keypoints=None)]: the classified direction and the
    object with [last_direction]/[current_direction] updated. *)
Definition get_direction (g : GestureRecognition) (keypoints : option Keypoints)
    : option Direction * GestureRecognition :=
  if (length (position_history g) <? 3)%nat then (None, g)
  else
    match last (position_history g), head (position_history g) with
    | Some recent, Some older =>
        let dx := np_sub (fst recent) (fst older) in
        let dy := np_sub (snd recent) (snd older) in
        if np_abs dy <? np_abs dx then
          if np_abs dx <? movement_threshold g then (None, g)
          else
            let direction := if 0 <? dx then RIGHT else LEFT in
            (Some direction, set_directions (Some direction) (g_current_direction g) g)
        else
          if np_abs dy <? movement_threshold g then (None, g)
          else
            let direction := if 0 <? dy then DOWN else UP in
            (Some direction, set_directions (Some direction) (g_current_direction g) g)
    | _, _ => (None, g)   (* not reached: the deque holds at least 3 samples *)
    end.

Definition finger_tips : list string := ["thumb"; "index"; "middle"; "ring"; "pinky"].

Section Predicates.
Context `{Numpy}.

(** [np.sqrt((p[0] - q[0])**2 + (p[1] - q[1])**2)] on tuples of ints. *)
Definition distance (p q : Position) : float64 :=
  np_sqrt ((fst p - fst q) ^ 2 + (snd p - snd q) ^ 2).

(** [is_open_palm(keypoints)] *)
Definition is_open_palm (keypoints : option Keypoints) : bool :=
  match keypoints with
  | None => false
  | Some kp =>
      let valid_fingers := filter (fun f => is_Some (kp_get kp f)) finger_tips in
      if (length valid_fingers <? 3)%nat then false
      else
        match kp_get kp "wrist" with
        | None => false
        | Some wrist =>
            let finger_positions :=
              flat_map (fun finger => match kp_get kp finger with
                                      | Some p => [p]
                                      | None => []
                                      end) valid_fingers in
            if (length finger_positions <? 3)%nat then false
            else
              let distances := map (fun finger_pos => distance finger_pos wrist) finger_positions in
              let avg_distance := np_mean distances in
              match head finger_positions, last finger_positions with
              | Some first, Some final =>
                  let index_pinky_dist := distance first final in
                  gt_int avg_distance 40 && gt_int index_pinky_dist 50
              | _, _ => false   (* not reached: at least 3 positions *)
              end
        end
  end.

(** [is_closed_fist(keypoints)] *)
Definition is_closed_fist (keypoints : option Keypoints) : bool :=
  match keypoints with
  | None => false
  | Some kp =>
      match kp_get kp "wrist" with
      | None => false
      | Some wrist =>
          let valid_fingers := filter (fun f => is_Some (kp_get kp f)) finger_tips in
          if (length valid_fingers <? 3)%nat then false
          else
            let distances :=
              flat_map (fun finger => match kp_get kp finger with
                                      | Some p => [distance p wrist]
                                      | None => []
                                      end) valid_fingers in
            if (length distances =? 0)%nat then false
            else
              let avg_distance := np_mean distances in
              lt_int avg_distance 30
      end
  end.

End Predicates.

(** [trigger_pause()] *)
Definition trigger_pause (g : GestureRecognition) : bool * GestureRecognition :=
  if pause_cooldown g =? 0
  then (true, set_cooldowns 30 (boost_cooldown g) g)
  else (false, g).

(** [trigger_boost()] *)
Definition trigger_boost (g : GestureRecognition) : bool * GestureRecognition :=
  if boost_cooldown g =? 0
  then (true, set_cooldowns (pause_cooldown g) 10 g)
  else (false, g).

(** [reset()]: the cooldowns are not touched. *)
Definition reset (g : GestureRecognition) : GestureRecognition :=
  {| movement_threshold := movement_threshold g;
     history_size := history_size g;
     position_history := [];
     neutral_position := None;
     is_calibrated := false;
     g_current_direction := None;
     last_direction := None;
     pause_cooldown := pause_cooldown g;
     boost_cooldown := boost_cooldown g |}.

End Gesture.

(** ** control_bridge.py *)

Record ControlBridge := {
  gesture_recognizer : GestureRecognition;
  current_direction : option Direction;
  boost_active : bool;
  pause_triggered : bool;
  last_move_direction : option Direction
}.

Module Bridge.

(** [__init__()] *)
Definition init : ControlBridge :=
  {| gesture_recognizer := Gesture.default;
     current_direction := None;
     boost_active := false;
     pause_triggered := false;
     last_move_direction := None |}.

Definition set_recognizer (g : GestureRecognition) (b : ControlBridge) :=
  {| gesture_recognizer := g;
     current_direction := current_direction b;
     boost_active := boost_active b;
     pause_triggered := pause_triggered b;
     last_move_direction := last_move_direction b |}.

Definition set_boost (v : bool) (b : ControlBridge) :=
  {| gesture_recognizer := gesture_recognizer b;
     current_direction := current_direction b;
     boost_active := v;
     pause_triggered := pause_triggered b;
     last_move_direction := last_move_direction b |}.

Definition set_pause (v : bool) (b : ControlBridge) :=
  {| gesture_recognizer := gesture_recognizer b;
     current_direction := current_direction b;
     boost_active := boost_active b;
     pause_triggered := v;
     last_move_direction := last_move_direction b |}.

(** [_update_direction(direction)] *)
Definition _update_direction (b : ControlBridge) (direction : option Direction) : ControlBridge :=
  match direction with
  | None => b
  | Some d =>
      match last_move_direction b with
      | None =>
          {| gesture_recognizer := gesture_recognizer b;
             current_direction := Some d;
             boost_active := boost_active b;
             pause_triggered := pause_triggered b;
             last_move_direction := Some d |}
      | Some last =>
          if bool_decide (d ≠ opposite last) then
            {| gesture_recognizer := gesture_recognizer b;
               current_direction := Some d;
               boost_active := boost_active b;
               pause_triggered := pause_triggered b;
               last_move_direction := Some d |}
          else b
      end
  end.

(** [_update_boost(is_open_palm)]: [and] evaluates [trigger_boost()] only
    when the palm is open. *)
Definition _update_boost (b : ControlBridge) (is_open_palm : bool) : ControlBridge :=
  if is_open_palm then
    let '(ok, g) := Gesture.trigger_boost (gesture_recognizer b) in
    set_boost ok (set_recognizer g b)
  else set_boost false b.

(** [_update_pause(is_closed_fist)] *)
Definition _update_pause (b : ControlBridge) (is_closed_fist : bool) : ControlBridge :=
  if is_closed_fist then
    let '(ok, g) := Gesture.trigger_pause (gesture_recognizer b) in
    if ok then set_pause true (set_recognizer g b) else set_recognizer g b
  else set_pause false b.

Section Update.
Context `{Numpy}.

(** [update(head_position, keypoints)] *)
Definition update (b : ControlBridge) (head_position : option Position)
    (keypoints : option Keypoints) : ControlBridge :=
  let g1 := Gesture.update (gesture_recognizer b) head_position keypoints in
  let '(direction, g2) := Gesture.get_direction g1 keypoints in
  let is_open_palm := Gesture.is_open_palm keypoints in
  let is_closed_fist := Gesture.is_closed_fist keypoints in
  let b1 := _update_direction (set_recognizer g2 b) direction in
  let b2 := _update_boost b1 is_open_palm in
  _update_pause b2 is_closed_fist.

End Update.

(** [get_direction()], [get_boost()] *)
Definition get_direction (b : ControlBridge) : option Direction := current_direction b.
Definition get_boost (b : ControlBridge) : bool := boost_active b.

(** [get_pause_trigger()]: read and clear. *)
Definition get_pause_trigger (b : ControlBridge) : bool * ControlBridge :=
  if pause_triggered b then (true, set_pause false b) else (false, b).

(** [calibrate(head_position)] *)
Definition calibrate (b : ControlBridge) (head_position : option Position) : ControlBridge :=
  set_recognizer (Gesture.calibrate (gesture_recognizer b) head_position) b.

(** [reset()] *)
Definition reset (b : ControlBridge) : ControlBridge :=
  {| gesture_recognizer := Gesture.reset (gesture_recognizer b);
     current_direction := None;
     boost_active := false;
     pause_triggered := false;
     last_move_direction := None |}.

End Bridge.

(** ** game_engine.py *)

(** *** Effects: exceptions, the unbounded loop, the random module *)

Inductive exn := ValueError | IndexError.

(** The outcome of a call: a value, an exception, or [OutOfFuel] when the
    [while True] loop of [_spawn_food] has not returned within the fuel it
    was given.  The object is mutated in place, so every outcome comes with
    the state the call left behind. *)
Inductive result (A : Type) :=
  | Ok (a : A)
  | Raise (e : exn)
  | OutOfFuel.
Arguments Ok {A} a.
Arguments Raise {A} e.
Arguments OutOfFuel {A}.

(** The state of the [random] module: a stream of raw draws and the number
    of draws taken so far. *)
Record Random := {
  entropy : nat -> nat;
  calls : nat
}.

Record SnakeGame := {
  grid_width : Z;
  grid_height : Z;
  cell_size : Z;
  snake : list Position;          (* head first *)
  direction : Direction;
  next_direction : Direction;
  score : Z;
  game_over : bool;
  paused : bool;
  food : Position;
  base_speed : Z;
  boost_speed : Z;
  speed_counter : Z
}.

Record World := {
  game : SnakeGame;
  rng : Random
}.

Definition M (A : Type) : Type := World -> result A * World.

Definition ret {A} (a : A) : M A := fun w => (Ok a, w).

Definition bind {A B} (m : M A) (k : A -> M B) : M B :=
  fun w =>
    match m w with
    | (Ok a, w') => k a w'
    | (Raise e, w') => (Raise e, w')
    | (OutOfFuel, w') => (OutOfFuel, w')
    end.

Definition raise {A} (e : exn) : M A := fun w => (Raise e, w).

Declare Scope py_scope.
Delimit Scope py_scope with py.
Notation "'let*' x ':=' m 'in' k" := (bind m (fun x => k))
  (at level 10, x name, m at level 100, k at level 200) : py_scope.
Notation "m >> k" := (bind m (fun _ => k))
  (at level 65, right associativity) : py_scope.

Definition get_self : M SnakeGame := fun w => (Ok (game w), w).

Definition modify (f : SnakeGame -> SnakeGame) : M unit :=
  fun w => (Ok tt, {| game := f (game w); rng := rng w |}).

(** [random.randint(a, b)]: [ValueError] on an empty range, otherwise the
    next raw draw reduced to [a..b]. *)
Definition randint (a b : Z) : M Z :=
  fun w =>
    if b <? a then (Raise ValueError, w)
    else
      let r := rng w in
      (Ok (a + Z.of_nat (entropy r (calls r)) mod (b - a + 1)),
       {| game := game w; rng := {| entropy := entropy r; calls := S (calls r) |} |}).

Module Engine.

Definition set_snake (v : list Position) (s : SnakeGame) :=
  {| grid_width := grid_width s; grid_height := grid_height s; cell_size := cell_size s;
     snake := v; direction := direction s; next_direction := next_direction s;
     score := score s; game_over := game_over s; paused := paused s; food := food s;
     base_speed := base_speed s; boost_speed := boost_speed s;
     speed_counter := speed_counter s |}.

Definition set_direction (v : Direction) (s : SnakeGame) :=
  {| grid_width := grid_width s; grid_height := grid_height s; cell_size := cell_size s;
     snake := snake s; direction := v; next_direction := next_direction s;
     score := score s; game_over := game_over s; paused := paused s; food := food s;
     base_speed := base_speed s; boost_speed := boost_speed s;
     speed_counter := speed_counter s |}.

Definition set_next_direction (v : Direction) (s : SnakeGame) :=
  {| grid_width := grid_width s; grid_height := grid_height s; cell_size := cell_size s;
     snake := snake s; direction := direction s; next_direction := v;
     score := score s; game_over := game_over s; paused := paused s; food := food s;
     base_speed := base_speed s; boost_speed := boost_speed s;
     speed_counter := speed_counter s |}.

Definition set_score (v : Z) (s : SnakeGame) :=
  {| grid_width := grid_width s; grid_height := grid_height s; cell_size := cell_size s;
     snake := snake s; direction := direction s; next_direction := next_direction s;
     score := v; game_over := game_over s; paused := paused s; food := food s;
     base_speed := base_speed s; boost_speed := boost_speed s;
     speed_counter := speed_counter s |}.

Definition set_game_over (v : bool) (s : SnakeGame) :=
  {| grid_width := grid_width s; grid_height := grid_height s; cell_size := cell_size s;
     snake := snake s; direction := direction s; next_direction := next_direction s;
     score := score s; game_over := v; paused := paused s; food := food s;
     base_speed := base_speed s; boost_speed := boost_speed s;
     speed_counter := speed_counter s |}.

Definition set_paused (v : bool) (s : SnakeGame) :=
  {| grid_width := grid_width s; grid_height := grid_height s; cell_size := cell_size s;
     snake := snake s; direction := direction s; next_direction := next_direction s;
     score := score s; game_over := game_over s; paused := v; food := food s;
     base_speed := base_speed s; boost_speed := boost_speed s;
     speed_counter := speed_counter s |}.

Definition set_food (v : Position) (s : SnakeGame) :=
  {| grid_width := grid_width s; grid_height := grid_height s; cell_size := cell_size s;
     snake := snake s; direction := direction s; next_direction := next_direction s;
     score := score s; game_over := game_over s; paused := paused s; food := v;
     base_speed := base_speed s; boost_speed := boost_speed s;
     speed_counter := speed_counter s |}.

Definition set_speed_counter (v : Z) (s : SnakeGame) :=
  {| grid_width := grid_width s; grid_height := grid_height s; cell_size := cell_size s;
     snake := snake s; direction := direction s; next_direction := next_direction s;
     score := score s; game_over := game_over s; paused := paused s; food := food s;
     base_speed := base_speed s; boost_speed := boost_speed s;
     speed_counter := v |}.

Definition set_speeds (base boost : Z) (s : SnakeGame) :=
  {| grid_width := grid_width s; grid_height := grid_height s; cell_size := cell_size s;
     snake := snake s; direction := direction s; next_direction := next_direction s;
     score := score s; game_over := game_over s; paused := paused s; food := food s;
     base_speed := base; boost_speed := boost;
     speed_counter := speed_counter s |}.

Local Open Scope py_scope.

(** [_spawn_food()]: rejection sampling, one turn of the loop per unit of
    fuel. *)
Fixpoint _spawn_food (fuel : nat) : M Position :=
  match fuel with
  | O => fun w => (OutOfFuel, w)
  | S fuel' =>
      let* self := get_self in
      let* food_x := randint 0 (grid_width self - 1) in
      let* food_y := randint 0 (grid_height self - 1) in
      let food_pos := (food_x, food_y) in
      if bool_decide (food_pos ∉ snake self) then ret food_pos
      else _spawn_food fuel'
  end.

(** [reset()] *)
Definition reset (fuel : nat) : M unit :=
  let* self := get_self in
  let center_x := grid_width self `div` 2 in
  let center_y := grid_height self `div` 2 in
  modify (set_snake [(center_x, center_y); (center_x - 1, center_y); (center_x - 2, center_y)]) >>
  modify (set_direction RIGHT) >>
  modify (set_next_direction RIGHT) >>
  modify (set_score 0) >>
  modify (set_game_over false) >>
  modify (set_paused false) >>
  let* f := _spawn_food fuel in
  modify (set_food f).

(** [__init__(grid_width=20, grid_height=20, cell_size=20)].  The attributes
    that [reset] and the lines after it assign do not exist before; the
    values they have here are never read.  The caller gets the object only
    when [__init__] returns. *)
Definition init (fuel : nat) (grid_width grid_height cell_size : Z) (r : Random)
    : result SnakeGame * Random :=
  let self :=
    {| grid_width := grid_width; grid_height := grid_height; cell_size := cell_size;
       snake := []; direction := RIGHT; next_direction := RIGHT;
       score := 0; game_over := false; paused := false; food := (0, 0);
       base_speed := 0; boost_speed := 0; speed_counter := 0 |} in
  match (reset fuel >> modify (set_speeds 10 5) >> modify (set_speed_counter 0))
          {| game := self; rng := r |} with
  | (Ok _, w) => (Ok (game w), rng w)
  | (Raise e, w) => (Raise e, rng w)
  | (OutOfFuel, w) => (OutOfFuel, rng w)
  end.

(** The dictionary [direction_map]. *)
Definition direction_map (d : Direction) : Z * Z :=
  match d with
  | UP => (0, -1)
  | DOWN => (0, 1)
  | LEFT => (-1, 0)
  | RIGHT => (1, 0)
  end.

(** [_move_snake()] *)
Definition _move_snake (fuel : nat) : M unit :=
  modify (fun self => set_direction (next_direction self) self) >>
  let* self := get_self in
  match snake self with
  | [] => raise IndexError
  | (head_x, head_y) :: _ =>
      let '(dx, dy) := direction_map (direction self) in
      let new_head := (head_x + dx, head_y + dy) in
      if (new_head.1 <? 0) || (grid_width self <=? new_head.1) ||
         (new_head.2 <? 0) || (grid_height self <=? new_head.2)
      then modify (set_game_over true)
      else if bool_decide (new_head ∈ snake self)
      then modify (set_game_over true)
      else
        modify (fun self => set_snake (new_head :: snake self) self) >>
        if bool_decide (new_head = food self) then
          modify (fun self => set_score (score self + 10) self) >>
          let* f := _spawn_food fuel in
          modify (set_food f)
        else
          modify (fun self => set_snake (removelast (snake self)) self)
  end.

(** [update(direction_command, boost_active)] *)
Definition update (fuel : nat) (direction_command : option Direction) (boost_active : bool)
    : M unit :=
  let* self := get_self in
  if game_over self || paused self then ret tt
  else
    match direction_command with
    | Some d =>
        if bool_decide (d ≠ opposite (direction self))
        then modify (set_next_direction d)
        else ret tt
    | None => ret tt
    end >>
    let* self := get_self in
    let current_speed := if boost_active then boost_speed self else base_speed self in
    modify (fun self => set_speed_counter (speed_counter self + 1) self) >>
    let* self := get_self in
    if current_speed <=? speed_counter self then
      modify (set_speed_counter 0) >>
      _move_snake fuel
    else ret tt.

(** [toggle_pause()] *)
Definition toggle_pause : M unit :=
  let* self := get_self in
  if negb (game_over self) then modify (set_paused (negb (paused self)))
  else ret tt.

End Engine.

(** ** numpy on IEEE binary64 *)

(** An instance of [Numpy] on Rocq's primitive floats, which are IEEE 754
    binary64 like numpy's float64.  The mean adds from left to right. *)
Module Float64.

(** An int as a float64, for |z| < 2^63, the range of [of_uint63]: exact
    below 2^53 and rounded above.  It is used at the thresholds 40 and 30,
    at list lengths and at the squared distance of two keypoints. *)
Definition of_Z (z : Z) : float :=
  match z with
  | Z0 => 0%float
  | Zpos _ => of_uint63 (Uint63.of_Z z)
  | Zneg _ => (- of_uint63 (Uint63.of_Z (- z)))%float
  end.

Definition sum (l : list float) : float := fold_left PrimFloat.add l 0%float.

#[global] Instance numpy : Numpy := {|
  float64 := float;
  np_sqrt z := PrimFloat.sqrt (of_Z z);
  np_mean l := (sum l / of_Z (Z.of_nat (length l)))%float;
  gt_int a n := PrimFloat.ltb (of_Z n) a;
  lt_int a n := PrimFloat.ltb a (of_Z n)
|}.

End Float64.

(** ** Runs of the control bridge *)

(** What the driver passes at a tick: the head position and the keypoints. *)
Abbreviation Sample := (option Position * option Keypoints)%type.

Module Ticks.
Section Ticks.
Context `{Numpy}.

(** The bridge after each of a sequence of [update] calls. *)
Fixpoint run (b : ControlBridge) (inputs : list Sample) : list ControlBridge :=
  match inputs with
  | [] => []
  | i :: rest =>
      let b' := Bridge.update b i.1 i.2 in
      b' :: run b' rest
  end.

(** One [update] and one [get_pause_trigger] per tick: the readings. *)
Fixpoint pause_readings (b : ControlBridge) (inputs : list Sample) : list bool :=
  match inputs with
  | [] => []
  | i :: rest =>
      let '(reading, b') := Bridge.get_pause_trigger (Bridge.update b i.1 i.2) in
      reading :: pause_readings b' rest
  end.

(** One [update] per tick: [get_boost()] after each. *)
Fixpoint boost_readings (b : ControlBridge) (inputs : list Sample) : list bool :=
  match inputs with
  | [] => []
  | i :: rest =>
      let b' := Bridge.update b i.1 i.2 in
      Bridge.get_boost b' :: boost_readings b' rest
  end.

End Ticks.
End Ticks.

(** A position sample is present and the fist is closed.  (vision.py hands
    out keypoints only together with a position.) *)
Definition fist_held `{Numpy} (i : Sample) : Prop :=
  is_Some i.1 ∧ Gesture.is_closed_fist i.2 = true.

(** A position sample is present and the palm is open: continuous
    detection. *)
Definition palm_held `{Numpy} (i : Sample) : Prop :=
  is_Some i.1 ∧ Gesture.is_open_palm i.2 = true.

(** The fist is closed at the tick, with or without a position sample. *)
Definition fist_closed `{Numpy} (i : Sample) : Prop :=
  Gesture.is_closed_fist i.2 = true.

(** How many of the ticks carry a position sample. *)
Definition position_samples (inputs : list Sample) : nat :=
  length (omap (λ i : Sample, i.1) inputs).

(** The direction [update] classifies at a tick: [get_direction] after the
    recognizer's own [update]. *)
Definition classified (b : ControlBridge) (i : Sample) : option Direction :=
  (Gesture.get_direction (Gesture.update (gesture_recognizer b) i.1 i.2) i.2).1.

(** The distances whose mean both predicates compare: wrist to each
    fingertip that is present, in the order thumb .. pinky. *)
Definition fingertip_distances `{Numpy} (kp : Keypoints) (wrist : Position) : list float64 :=
  flat_map (λ finger, match kp_get kp finger with
                      | Some p => [Gesture.distance p wrist]
                      | None => []
                      end)
           (filter (λ f, is_Some (kp_get kp f)) Gesture.finger_tips).

(** What a held gesture reads over [n] ticks with a position sample: the
    counter [c] ticks down, and the trigger fires and re-arms it to [period]
    whenever it is zero after the tick. *)
Fixpoint cooldown_pattern (period c : Z) (n : nat) : list bool :=
  match n with
  | O => []
  | S n' =>
      let c' := if 0 <? c then c - 1 else c in
      if c' =? 0 then true :: cooldown_pattern period period n'
      else false :: cooldown_pattern period c' n'
  end.

(** Keypoints of a hand closed around the wrist, and of a spread hand. *)
Definition fist_keypoints : Keypoints :=
  <["wrist" := Some (0, 0)]> (<["thumb" := Some (1, 0)]> (<["index" := Some (0, 1)]>
  (<["middle" := Some (1, 1)]> (<["ring" := None]> ∅)))).

Definition palm_keypoints : Keypoints :=
  <["wrist" := Some (0, 0)]> (<["thumb" := Some (-60, 50)]> (<["index" := Some (0, 100)]>
  (<["pinky" := Some (60, 50)]> ∅))).

(** ** Runs of the game engine *)

Inductive call :=
  | Update (direction_command : option Direction) (boost_active : bool)
  | TogglePause.

Definition perform (fuel : nat) (c : call) : M unit :=
  match c with
  | Update cmd boost => Engine.update fuel cmd boost
  | TogglePause => Engine.toggle_pause
  end.

(** The world after each call of a sequence; a call that raises or does not
    return ends the run. *)
Fixpoint run_calls (fuel : nat) (cs : list call) (w : World) : list World :=
  match cs with
  | [] => []
  | c :: rest =>
      match perform fuel c w with
      | (Ok _, w') => w' :: run_calls fuel rest w'
      | (_, w') => [w']
      end
  end.

(** [chain R a l]: [R] relates each element of [a :: l] to the next one. *)
Fixpoint chain {A} (R : A -> A -> Prop) (a : A) (l : list A) : Prop :=
  match l with
  | [] => True
  | b :: rest => R a b ∧ chain R b rest
  end.

(** A step of [last_move_direction]: kept, or replaced by a direction that
    is not the opposite of the one before. *)
Definition bridge_commit (old new : option Direction) : Prop :=
  new = old ∨ ∃ d, new = Some d ∧ ∀ p, old = Some p → d ≠ opposite p.

(** A step of the engine's [direction]: never to the opposite. *)
Definition engine_commit (old new : Direction) : Prop := new ≠ opposite old.

(** The cell a movement step computes from the head and the buffered
    direction. *)
Definition new_head_of (self : SnakeGame) : option Position :=
  match snake self with
  | [] => None
  | (head_x, head_y) :: _ =>
      let '(dx, dy) := Engine.direction_map (next_direction self) in
      Some (head_x + dx, head_y + dy)
  end.

Definition in_grid (self : SnakeGame) (c : Position) : Prop :=
  0 <= c.1 < grid_width self ∧ 0 <= c.2 < grid_height self.

#[global] Instance in_grid_dec self c : Decision (in_grid self c).
Proof. unfold in_grid. apply _. Defined.

(** The cell is a wall or a cell of the snake, tail included. *)
Definition collides (self : SnakeGame) (c : Position) : Prop :=
  ¬ in_grid self c ∨ c ∈ snake self.

(** The direction [update] leaves in [next_direction]. *)
Definition buffered (self : SnakeGame) (direction_command : option Direction) : Direction :=
  match direction_command with
  | Some d => if bool_decide (d ≠ opposite (direction self)) then d else next_direction self
  | None => next_direction self
  end.

(** A movement step is due at this [update]. *)
Definition step_due (self : SnakeGame) (boost_active : bool) : Prop :=
  (if boost_active then boost_speed self else base_speed self) <= speed_counter self + 1.

(** The cell that turn [k] of the loop in [_spawn_food] draws on a grid of
    the given width and height. *)
Definition draw (grid_width grid_height : Z) (r : Random) (k : nat) : Position :=
  (Z.of_nat (entropy r (calls r + 2 * k)%nat) mod grid_width,
   Z.of_nat (entropy r (calls r + 2 * k + 1)%nat) mod grid_height).

Definition candidate (self : SnakeGame) (r : Random) (k : nat) : Position :=
  draw (grid_width self) (grid_height self) r k.

(** The buffered direction never asks for a reversal of the committed one. *)
Definition staged_ok (self : SnakeGame) : Prop :=
  next_direction self ≠ opposite (direction self).

(** The three cells [reset] puts the snake on. *)
Definition initial_snake (grid_width grid_height : Z) : list Position :=
  let center_x := grid_width `div` 2 in
  let center_y := grid_height `div` 2 in
  [(center_x, center_y); (center_x - 1, center_y); (center_x - 2, center_y)].

(** The object as [reset], called from [__init__], has it when it asks
    [_spawn_food] for the first food. *)
Definition seeded (grid_width grid_height cell_size : Z) : SnakeGame :=
  {| grid_width := grid_width; grid_height := grid_height; cell_size := cell_size;
     snake := initial_snake grid_width grid_height;
     direction := RIGHT; next_direction := RIGHT;
     score := 0; game_over := false; paused := false; food := (0, 0);
     base_speed := 0; boost_speed := 0; speed_counter := 0 |}.

(** ** Concrete games *)

(** A random module whose raw draws are 0, 1, 2, ... *)
Definition counting : Random := {| entropy := λ n, n; calls := 0 |}.

(** A running 20x20 game; the attributes are those [__init__] sets, with the
    given snake, directions and food. *)
Definition playing (cells : list Position) (d next : Direction) (f : Position) : SnakeGame :=
  {| grid_width := 20; grid_height := 20; cell_size := 20;
     snake := cells; direction := d; next_direction := next;
     score := 0; game_over := false; paused := false; food := f;
     base_speed := 10; boost_speed := 5; speed_counter := 0 |}.

(** The snake has just turned up and is asked to turn right, onto its own
    tail cell (6, 5). *)
Definition curled : World :=
  {| game := playing [(5, 5); (5, 6); (6, 6); (6, 5)] UP RIGHT (0, 0); rng := counting |}.

(** The food lies right in front of the head. *)
Definition about_to_eat : World :=
  {| game := playing [(10, 10); (9, 10); (8, 10)] RIGHT RIGHT (11, 10); rng := counting |}.

(** The object [__init__] starts from on a 20x20 grid, before [reset]. *)
Definition unset : World :=
  {| game := playing [] RIGHT RIGHT (0, 0); rng := counting |}.

(** ** The classifier as the specification words it *)

(** Coordinates far from the ends of int64, as pixel coordinates are. *)
Definition coordinate (z : Z) : Prop := - 2 ^ 62 < z < 2 ^ 62.
Definition pixel (p : Position) : Prop := coordinate p.1 ∧ coordinate p.2.

(** Fewer than 3 samples: None.  Otherwise the displacement is newest minus
    oldest; the horizontal axis wins only when |dx| is strictly larger; a
    winning magnitude below the threshold gives None; the sign of the winning
    axis gives the direction. *)
Definition classify_direction_spec (threshold : Z) (history : list Position)
    : option Direction :=
  if (length history <? 3)%nat then None
  else
    match last history, head history with
    | Some newest, Some oldest =>
        let dx := newest.1 - oldest.1 in
        let dy := newest.2 - oldest.2 in
        let '(winner, positive, negative) :=
          if Z.abs dy <? Z.abs dx then (dx, RIGHT, LEFT) else (dy, DOWN, UP) in
        if Z.abs winner <? threshold then None
        else if 0 <? winner then Some positive
        else if winner <? 0 then Some negative
        else None
    | _, _ => None
    end.

(** The displacement of a history, newest minus oldest. *)
Definition displacement (history : list Position) : Z * Z :=
  match last history, head history with
  | Some newest, Some oldest => (newest.1 - oldest.1, newest.2 - oldest.2)
  | _, _ => (0, 0)
  end.

(** ** Sequences of calls on the recognizer and the bridge *)

(** One [update] per sample, each with a position. *)
Definition feed (g : GestureRecognition) (samples : list (Position * option Keypoints))
    : GestureRecognition :=
  foldl (λ g s, Gesture.update g (Some s.1) s.2) g samples.

(** The calls the driver makes on the bridge. *)
Inductive bridge_call :=
  | Tick (s : Sample)
  | ReadPause
  | Calibrate (head_position : option Position)
  | ResetBridge.

Definition bridge_perform `{Numpy} (b : ControlBridge) (c : bridge_call) : ControlBridge :=
  match c with
  | Tick s => Bridge.update b s.1 s.2
  | ReadPause => (Bridge.get_pause_trigger b).2
  | Calibrate p => Bridge.calibrate b p
  | ResetBridge => Bridge.reset b
  end.

Definition bridge_run `{Numpy} (b : ControlBridge) (cs : list bridge_call) : ControlBridge :=
  foldl bridge_perform b cs.

(** Both cooldown counters are within what [trigger_pause] and
    [trigger_boost] arm them to. *)
Definition cooldowns_in_range (g : GestureRecognition) : Prop :=
  0 <= pause_cooldown g <= 30 ∧ 0 <= boost_cooldown g <= 10.

(** Any two true readings are at least [gap] ticks apart. *)
Definition spaced (gap : nat) (readings : list bool) : Prop :=
  ∀ i j, readings !! i = Some true → readings !! j = Some true →
         (i < j)%nat → (i + gap <= j)%nat.

(** ** Sequences of calls on the game *)

(** [update], [toggle_pause] and [reset] in any order. *)
Inductive action :=
  | Call (c : call)
  | Restart.

Definition act (fuel : nat) (a : action) : M unit :=
  match a with
  | Call c => perform fuel c
  | Restart => Engine.reset fuel
  end.

(** The calls one after the other; an exception or a loop that does not
    return ends the sequence. *)
Fixpoint play (fuel : nat) (actions : list action) : M unit :=
  match actions with
  | [] => ret tt
  | a :: rest => bind (act fuel a) (λ _, play fuel rest)
  end.

(** The object as [reset] has it when it asks [_spawn_food] for the food. *)
Definition restarted (self : SnakeGame) : SnakeGame :=
  Engine.set_paused false
    (Engine.set_game_over false
       (Engine.set_score 0
          (Engine.set_next_direction RIGHT
             (Engine.set_direction RIGHT
                (Engine.set_snake (initial_snake (grid_width self) (grid_height self))
                   self))))).

(** Two cells that share a side. *)
Definition adjacent (a b : Position) : Prop :=
  Z.abs (a.1 - b.1) + Z.abs (a.2 - b.2) = 1.

(** Each cell shares a side with the next one. *)
Definition path (cells : list Position) : Prop :=
  match cells with
  | [] => True
  | c :: rest => chain adjacent c rest
  end.

(** At least three cells, no cell twice, each next to the one before. *)
Definition simple_path (cells : list Position) : Prop :=
  (3 <= length cells)%nat ∧ NoDup cells ∧ path cells.

(** What a call can do to the snake, the score and the food, with the
    outcome of the call. *)
Inductive effect (s s' : SnakeGame) : result unit → Prop :=
  | effect_still :
      snake s' = snake s → score s' = score s → food s' = food s →
      effect s s' (Ok tt)
  | effect_moved new_head head rest :
      snake s = head :: rest → adjacent new_head head → in_grid s new_head →
      new_head ∉ snake s → new_head ≠ food s →
      snake s' = new_head :: removelast (snake s) →
      score s' = score s → food s' = food s →
      effect s s' (Ok tt)
  | effect_eaten new_head head rest :
      snake s = head :: rest → adjacent new_head head → in_grid s new_head →
      new_head ∉ snake s → new_head = food s →
      snake s' = new_head :: snake s → score s' = score s + 10 →
      in_grid s (food s') → food s' ∉ snake s' →
      effect s s' (Ok tt)
  | effect_starved new_head head rest :
      snake s = head :: rest → adjacent new_head head → in_grid s new_head →
      new_head ∉ snake s → new_head = food s →
      snake s' = new_head :: snake s → score s' = score s + 10 →
      food s' = food s →
      effect s s' OutOfFuel
  | effect_broken :
      snake s = [] →
      snake s' = snake s → score s' = score s → food s' = food s →
      effect s s' (Raise IndexError).

(** The food is a cell of the grid that is not under the snake. *)
Definition fed_ok (s : SnakeGame) : Prop :=
  in_grid s (food s) ∧ food s ∉ snake s.

(** [update] once per element, each with its command and boost flag. *)
Definition updates (us : list (option Direction * bool)) : list action :=
  map (λ u, Call (Update u.1 u.2)) us.

(** The direction that is buffered after a run of commands, none of which
    came with a movement step. *)
Definition staged_after (self : SnakeGame) (cmds : list (option Direction)) : Direction :=
  foldl (λ next cmd, match cmd with
                     | Some d => if bool_decide (d ≠ opposite (direction self)) then d else next
                     | None => next
                     end)
        (next_direction self) cmds.

(** ** ui.py: the game board *)

Record UIModule := {
  window_width : Z;
  window_height : Z
}.

Abbreviation Color := (Z * Z * Z)%type.

(** What [pygame.draw.rect] and [pygame.draw.circle] are asked to put on the
    screen: a rectangle by its corner (x, y), width and height, a circle by
    its centre and radius. *)
Inductive drawing :=
  | rect (color : Color) (x y width height : Z)
  | circle (color : Color) (center : Z * Z) (radius : Z).

Module UI.

Definition GREEN : Color := (0, 255, 0).
Definition RED : Color := (255, 0, 0).
Definition DARK_GREEN : Color := (0, 200, 0).

(** Where the board starts: [board_x] and [board_y] of [_draw_game_board]. *)
Definition board_x (self : UIModule) (game : SnakeGame) : Z :=
  (window_width self - grid_width game * cell_size game) `div` 2 - 50.

Definition board_y (self : UIModule) (game : SnakeGame) : Z :=
  (window_height self - grid_height game * cell_size game) `div` 2 + 30.

(** [_draw_game_board(game)]: the drawing calls in the order they are made. *)
Definition _draw_game_board (self : UIModule) (game : SnakeGame) : list drawing :=
  let cell := cell_size game in
  let board_width := grid_width game * cell in
  let board_height := grid_height game * cell in
  let bx := board_x self game in
  let by' := board_y self game in
  [rect (20, 20, 20) (bx - 5) (by' - 5) (board_width + 10) (board_height + 10)] ++
  imap (λ i segment,
          let x := bx + segment.1 * cell in
          let y := by' + segment.2 * cell in
          let color := if bool_decide (i = 0%nat) then GREEN else DARK_GREEN in
          rect color x y (cell - 2) (cell - 2))
       (snake game) ++
  (let food_x := bx + (food game).1 * cell in
   let food_y := by' + (food game).2 * cell in
   [circle RED (food_x + cell `div` 2, food_y + cell `div` 2) (cell `div` 2 - 2)]).

End UI.

(** The rectangle [x, x + width] x [y, y + height] lies within another. *)
Definition within (x y width height x0 y0 width0 height0 : Z) : Prop :=
  x0 <= x ∧ x + width <= x0 + width0 ∧ y0 <= y ∧ y + height <= y0 + height0.

(** The points of a rectangle, or the square around a circle, lie within the
    board of the game. *)
Definition on_board (self : UIModule) (game : SnakeGame) (d : drawing) : Prop :=
  match d with
  | rect _ x y width height =>
      UI.board_x self game <= x ∧
      x + width <= UI.board_x self game + grid_width game * cell_size game ∧
      UI.board_y self game <= y ∧
      y + height <= UI.board_y self game + grid_height game * cell_size game
  | circle _ center radius =>
      within (center.1 - radius) (center.2 - radius) (2 * radius) (2 * radius)
        (UI.board_x self game) (UI.board_y self game)
        (grid_width game * cell_size game) (grid_height game * cell_size game)
  end.

(** Two rectangles without a common point. *)
Definition apart (d1 d2 : drawing) : Prop :=
  match d1, d2 with
  | rect _ x1 y1 w1 h1, rect _ x2 y2 w2 h2 =>
      x1 + w1 <= x2 ∨ x2 + w2 <= x1 ∨ y1 + h1 <= y2 ∨ y2 + h2 <= y1
  | _, _ => False
  end.

(** ** main.py: one turn of the game loop *)

Record GameController := {
  control_bridge : ControlBridge;
  the_game : World
}.

Module Main.
Section Loop.
Context `{Numpy}.

Local Open Scope py_scope.

(** The body of the loop in [run_game_loop] from the detection on, given
    what [detect_hand] returned and whether SPACE is held.  Drawing and the
    clock only read the objects and are left out. *)
Definition loop_body (fuel : nat) (self : GameController) (head_pos : option Position)
    (keypoints : option Keypoints) (space : bool) : result unit * GameController :=
  let b1 := Bridge.update (control_bridge self) head_pos keypoints in
  let direction := Bridge.get_direction b1 in
  let boost_active := Bridge.get_boost b1 in
  let '(pause_trigger, b2) := Bridge.get_pause_trigger b1 in
  let handle_pause : M unit :=
    if pause_trigger then Engine.toggle_pause else ret tt in
  let update_game : M unit :=
    let* game := get_self in
    if negb (paused game) then Engine.update fuel direction boost_active else ret tt in
  match (handle_pause >> update_game >> get_self) (the_game self) with
  | (Ok game, w1) =>
      if space && game_over game then
        match Engine.reset fuel w1 with
        | (Ok _, w2) => (Ok tt, {| control_bridge := Bridge.reset b2; the_game := w2 |})
        | (Raise e, w2) => (Raise e, {| control_bridge := b2; the_game := w2 |})
        | (OutOfFuel, w2) => (OutOfFuel, {| control_bridge := b2; the_game := w2 |})
        end
      else (Ok tt, {| control_bridge := b2; the_game := w1 |})
  | (Raise e, w1) => (Raise e, {| control_bridge := b2; the_game := w1 |})
  | (OutOfFuel, w1) => (OutOfFuel, {| control_bridge := b2; the_game := w1 |})
  end.

End Loop.
End Main.

(** How far a displacement goes in a direction (y grows downwards). *)
Definition along (d : Direction) (v : Z * Z) : Z :=
  match d with
  | RIGHT => v.1
  | LEFT => - v.1
  | DOWN => v.2
  | UP => - v.2
  end.

(** * Properties *)

(** ** The classifier *)

Lemma int64_small z : - 2 ^ 63 <= z < 2 ^ 63 → int64 z = z.
Proof.
  intros Hz. unfold int64.
  rewrite Z.mod_small; lia.
Qed.

Lemma np_sub_exact a b : coordinate a → coordinate b → np_sub a b = a - b.
Proof. unfold coordinate, np_sub. intros Ha Hb. apply int64_small. lia. Qed.

Lemma np_abs_exact a b : coordinate a → coordinate b → np_abs (a - b) = Z.abs (a - b).
Proof. unfold coordinate, np_abs. intros Ha Hb. apply int64_small. lia. Qed.

Lemma head_pixel (h : list Position) p : Forall pixel h → head h = Some p → pixel p.
Proof.
  intros Hall Hp. apply head_Some in Hp as [l' ->].
  by apply Forall_cons in Hall as [? _].
Qed.

Lemma last_pixel (h : list Position) p : Forall pixel h → last h = Some p → pixel p.
Proof.
  intros Hall Hp. apply last_Some_elem_of in Hp.
  rewrite Forall_forall in Hall. by apply Hall.
Qed.

(** On pixel coordinates [get_direction] compares the exact displacement. *)
Lemma get_direction_exact g kp recent older :
  Forall pixel (position_history g) →
  (3 <= length (position_history g))%nat →
  last (position_history g) = Some recent →
  head (position_history g) = Some older →
  let dx := recent.1 - older.1 in
  let dy := recent.2 - older.2 in
  (Gesture.get_direction g kp).1 =
    if Z.abs dy <? Z.abs dx then
      if Z.abs dx <? movement_threshold g then None
      else Some (if 0 <? dx then RIGHT else LEFT)
    else
      if Z.abs dy <? movement_threshold g then None
      else Some (if 0 <? dy then DOWN else UP).
Proof.
  intros Hpix Hlen Hlast Hhead dx dy.
  destruct (last_pixel _ _ Hpix Hlast) as [Hrx Hry].
  destruct (head_pixel _ _ Hpix Hhead) as [Hox Hoy].
  unfold Gesture.get_direction.
  destruct (Nat.ltb_spec (length (position_history g)) 3) as [Hlt|_]; [lia|].
  rewrite Hlast, Hhead.
  rewrite !np_sub_exact, !np_abs_exact by assumption.
  fold dx dy.
  repeat case_match; reflexivity.
Qed.

(** C4: on a recognizer with a positive movement threshold and pixel
    coordinates in its history, [get_direction] returns what the reference
    definition of the specification returns: None below 3 samples, otherwise
    newest minus oldest, horizontal only when |dx| > |dy|, None when the
    winning magnitude is below the threshold, and the sign of the winning
    axis otherwise. *)
Theorem get_direction_refines_spec g kp :
  0 < movement_threshold g →
  Forall pixel (position_history g) →
  (Gesture.get_direction g kp).1 =
    classify_direction_spec (movement_threshold g) (position_history g).
Proof.
  intros Hthr Hpix.
  unfold classify_direction_spec.
  destruct (Nat.ltb_spec (length (position_history g)) 3) as [Hlt|Hge].
  - unfold Gesture.get_direction.
    destruct (Nat.ltb_spec (length (position_history g)) 3); [done|lia].
  - destruct (last (position_history g)) as [recent|] eqn:Hlast; cycle 1.
    { apply last_None in Hlast. rewrite Hlast in Hge. simpl in Hge. lia. }
    destruct (head (position_history g)) as [older|] eqn:Hhead; cycle 1.
    { apply head_None in Hhead. rewrite Hhead in Hge. simpl in Hge. lia. }
    rewrite (get_direction_exact g kp recent older) by assumption.
    cbv zeta.
    destruct (Z.ltb_spec (Z.abs (recent.2 - older.2)) (Z.abs (recent.1 - older.1)));
      cbv beta iota;
      repeat match goal with
             | |- context [?a <? ?b] => destruct (Z.ltb_spec a b)
             end; try reflexivity; lia.
Qed.

(** The default recognizer after three samples that moved 40 pixels right. *)
Lemma get_direction_refines_spec_witness :
  let g := Gesture.set_history [(100, 100); (120, 101); (140, 102)] Gesture.default in
  (Gesture.get_direction g None).1 = Some RIGHT ∧
  classify_direction_spec 30 [(100, 100); (120, 101); (140, 102)] = Some RIGHT.
Proof.
  set (g := Gesture.set_history [(100, 100); (120, 101); (140, 102)] Gesture.default).
  assert (Hthr : 0 < movement_threshold g) by (vm_compute; reflexivity).
  assert (Hpix : Forall pixel (position_history g)).
  { repeat constructor; vm_compute; done. }
  pose proof (get_direction_refines_spec g None Hthr Hpix) as Heq.
  split; [rewrite Heq|]; vm_compute; reflexivity.
Defined.

(** C7 as the specification states it does not hold: with no position the
    pause cooldown 5 stays 5 and the boost cooldown 3 stays 3. *)
Lemma update_without_position_keeps_cooldowns :
  let g := Gesture.set_cooldowns 5 3 Gesture.default in
  pause_cooldown (Gesture.update g None None) ≠ pause_cooldown g - 1 ∧
  boost_cooldown (Gesture.update g None None) ≠ boost_cooldown g - 1.
Proof. vm_compute. split; discriminate. Qed.

(** C7 (amended): [update] with an absent position returns at once: the
    history and both cooldown counters, like every other attribute, are
    unchanged, however often it is called.  The counters go down (by one,
    not below zero) only in an [update] that carries a position. *)
Theorem update_without_position_is_identity g kp :
  Gesture.update g None kp = g ∧
  (∀ n, Nat.iter n (λ g', Gesture.update g' None kp) g = g) ∧
  (∀ p, let g' := Gesture.update g (Some p) kp in
        pause_cooldown g' =
          (if 0 <? pause_cooldown g then pause_cooldown g - 1 else pause_cooldown g) ∧
        boost_cooldown g' =
          (if 0 <? boost_cooldown g then boost_cooldown g - 1 else boost_cooldown g)).
Proof.
  split_and!.
  - reflexivity.
  - induction n as [|n IH]; [reflexivity|].
    change (Nat.iter (S n) (λ g', Gesture.update g' None kp) g)
      with (Gesture.update (Nat.iter n (λ g', Gesture.update g' None kp) g) None kp).
    by rewrite IH.
  - intros p. cbv zeta. split; reflexivity.
Qed.

(** With a position the cooldowns do tick: each strictly positive counter
    goes down by one and a zero stays zero. *)
Lemma update_with_position_ticks g p kp :
  let g' := Gesture.update g (Some p) kp in
  pause_cooldown g' = (if 0 <? pause_cooldown g then pause_cooldown g - 1 else pause_cooldown g) ∧
  boost_cooldown g' = (if 0 <? boost_cooldown g then boost_cooldown g - 1 else boost_cooldown g) ∧
  position_history g' = Gesture.deque_append (history_size g) (position_history g) p.
Proof. done. Qed.

(** C8 as the specification states it does not hold: a displacement of
    exactly 30 to the right is classified RIGHT. *)
Lemma threshold_displacement_is_classified :
  let g := Gesture.set_history [(0, 0); (0, 0); (30, 0)] Gesture.default in
  (3 <= length (position_history g))%nat ∧
  Z.max (Z.abs (displacement (position_history g)).1)
        (Z.abs (displacement (position_history g)).2) = movement_threshold g ∧
  (Gesture.get_direction g None).1 = Some RIGHT ∧
  (Gesture.get_direction g None).1 ≠ None.
Proof. cbv zeta. repeat split; try done; vm_compute; lia. Qed.

(** C8 (amended): for a history of at least 3 pixel samples whose
    displacement on the dominant axis has magnitude exactly the movement
    threshold, the classified direction is not None: it is the direction of
    the sign of the dominant axis (only a magnitude strictly below the
    threshold is rejected). *)
Theorem threshold_displacement_accepted g kp :
  (3 <= length (position_history g))%nat →
  Forall pixel (position_history g) →
  let dx := (displacement (position_history g)).1 in
  let dy := (displacement (position_history g)).2 in
  Z.max (Z.abs dx) (Z.abs dy) = movement_threshold g →
  (Gesture.get_direction g kp).1 =
    Some (if Z.abs dy <? Z.abs dx
          then (if 0 <? dx then RIGHT else LEFT)
          else (if 0 <? dy then DOWN else UP)).
Proof.
  intros Hlen Hpix. unfold displacement.
  destruct (last (position_history g)) as [recent|] eqn:Hlast; cycle 1.
  { apply last_None in Hlast. rewrite Hlast in Hlen. simpl in Hlen. lia. }
  destruct (head (position_history g)) as [older|] eqn:Hhead; cycle 1.
  { apply head_None in Hhead. rewrite Hhead in Hlen. simpl in Hlen. lia. }
  cbv zeta. cbn [fst snd]. intros Hmax.
  rewrite (get_direction_exact g kp recent older) by assumption.
  cbv zeta.
  set (dx := recent.1 - older.1) in *. set (dy := recent.2 - older.2) in *.
  destruct (Z.ltb_spec (Z.abs dy) (Z.abs dx)).
  - destruct (Z.ltb_spec (Z.abs dx) (movement_threshold g)); [lia|reflexivity].
  - destruct (Z.ltb_spec (Z.abs dy) (movement_threshold g)); [lia|reflexivity].
Qed.

(** A displacement of exactly 30 upwards with the default threshold. *)
Lemma threshold_displacement_accepted_witness :
  (Gesture.get_direction
     (Gesture.set_history [(50, 80); (50, 60); (50, 50)] Gesture.default) None).1
  = Some UP.
Proof.
  apply (threshold_displacement_accepted
           (Gesture.set_history [(50, 80); (50, 60); (50, 50)] Gesture.default) None).
  - vm_compute. lia.
  - repeat constructor; vm_compute; done.
  - vm_compute. reflexivity.
Defined.

(** ** The gesture predicates *)

Lemma map_flat_map {A B C} (f : B → C) (g : A → list B) (l : list A) :
  map f (flat_map g l) = flat_map (λ a, map f (g a)) l.
Proof.
  induction l as [|a l IH]; [done|].
  cbn [flat_map]. by rewrite map_app, IH.
Qed.

Lemma flat_map_ext' {A B} (f g : A → list B) (l : list A) :
  (∀ a, f a = g a) → flat_map f l = flat_map g l.
Proof.
  intros Hfg. induction l as [|a l IH]; [done|].
  cbn [flat_map]. by rewrite Hfg, IH.
Qed.

Section Exclusive.
Context `{Numpy}.

(** An open palm has a wrist and a mean fingertip distance above 40. *)
Lemma is_open_palm_mean kp :
  Gesture.is_open_palm (Some kp) = true →
  ∃ wrist, kp_get kp "wrist" = Some wrist ∧
           gt_int (np_mean (fingertip_distances kp wrist)) 40 = true.
Proof.
  unfold Gesture.is_open_palm, fingertip_distances.
  set (valid := filter _ Gesture.finger_tips).
  destruct (length valid <? 3)%nat; [done|].
  destruct (kp_get kp "wrist") as [wrist|]; [|done].
  set (positions := flat_map _ valid).
  destruct (length positions <? 3)%nat; [done|].
  destruct (head positions), (last positions); try done.
  intros [Hmean _]%andb_true_iff.
  exists wrist. split; [done|].
  unfold positions in Hmean. rewrite map_flat_map in Hmean.
  rewrite (flat_map_ext' _ (λ finger, match kp_get kp finger with
                                      | Some p => [Gesture.distance p wrist]
                                      | None => []
                                      end)) in Hmean; [exact Hmean|].
  intros finger. by destruct (kp_get kp finger).
Qed.

(** A closed fist has a wrist and the same mean below 30. *)
Lemma is_closed_fist_mean kp :
  Gesture.is_closed_fist (Some kp) = true →
  ∃ wrist, kp_get kp "wrist" = Some wrist ∧
           lt_int (np_mean (fingertip_distances kp wrist)) 30 = true.
Proof.
  unfold Gesture.is_closed_fist, fingertip_distances.
  destruct (kp_get kp "wrist") as [wrist|]; [|done].
  set (valid := filter _ Gesture.finger_tips).
  destruct (length valid <? 3)%nat; [done|].
  set (distances := flat_map _ valid).
  destruct (length distances =? 0)%nat; [done|].
  intros Hmean. by exists wrist.
Qed.

(** C10: when no float64 is both above 40 and below 30, [is_open_palm] and
    [is_closed_fist] never both return true on the same keypoints: the first
    needs the mean wrist-to-fingertip distance above 40, the second needs the
    same mean below 30. *)
Theorem open_palm_closed_fist_exclusive (keypoints : option Keypoints) :
  (∀ a : float64, gt_int a 40 = true → lt_int a 30 = true → False) →
  ¬ (Gesture.is_open_palm keypoints = true ∧ Gesture.is_closed_fist keypoints = true).
Proof.
  intros Horder [Hopen Hfist].
  destruct keypoints as [kp|]; [|done].
  apply is_open_palm_mean in Hopen as (wrist & Hw & Hgt).
  apply is_closed_fist_mean in Hfist as (wrist' & Hw' & Hlt).
  rewrite Hw in Hw'. injection Hw' as <-.
  exact (Horder _ Hgt Hlt).
Qed.

End Exclusive.

(** On binary64 nothing is above 40 and below 30. *)
Lemma float64_order (a : float) :
  PrimFloat.ltb (Float64.of_Z 40) a = true →
  PrimFloat.ltb a (Float64.of_Z 30) = true → False.
Proof.
  rewrite !ltb_spec.
  replace (Prim2SF (Float64.of_Z 40)) with (S754_finite false 5629499534213120 (-47))
    by (vm_compute; reflexivity).
  replace (Prim2SF (Float64.of_Z 30)) with (S754_finite false 8444249301319680 (-48))
    by (vm_compute; reflexivity).
  unfold SFltb, SFcompare.
  destruct (Prim2SF a) as [s|s| |s m e]; try discriminate.
  - destruct s; discriminate.
  - destruct s; try discriminate.
    destruct (Z.compare_spec (-47) e), (Z.compare_spec e (-48));
      try discriminate; lia.
Qed.

(** On binary64, the spread hand is an open palm and not a closed fist. *)
Lemma open_palm_closed_fist_exclusive_witness :
  Gesture.is_open_palm (Some palm_keypoints) = true ∧
  ¬ (Gesture.is_open_palm (Some palm_keypoints) = true ∧
     Gesture.is_closed_fist (Some palm_keypoints) = true).
Proof.
  split.
  - vm_compute. reflexivity.
  - apply (open_palm_closed_fist_exclusive (Some palm_keypoints)).
    exact float64_order.
Defined.

(** ** The control bridge: cooldown gating *)

Lemma get_direction_cooldowns g kp :
  pause_cooldown (Gesture.get_direction g kp).2 = pause_cooldown g ∧
  boost_cooldown (Gesture.get_direction g kp).2 = boost_cooldown g.
Proof. unfold Gesture.get_direction. by repeat case_match. Qed.

Lemma update_direction_frame b d :
  gesture_recognizer (Bridge._update_direction b d) = gesture_recognizer b ∧
  boost_active (Bridge._update_direction b d) = boost_active b ∧
  pause_triggered (Bridge._update_direction b d) = pause_triggered b.
Proof. unfold Bridge._update_direction. by repeat case_match. Qed.

Section Cooldowns.
Context `{Numpy}.

(** What one [update] does to the boost and pause state, in terms of the
    cooldowns the recognizer has after its own [update]. *)
Lemma update_view b pos kp :
  let g := Gesture.update (gesture_recognizer b) pos kp in
  let b' := Bridge.update b pos kp in
  let boost := Gesture.is_open_palm kp && (boost_cooldown g =? 0) in
  let pause := Gesture.is_closed_fist kp && (pause_cooldown g =? 0) in
  boost_active b' = boost ∧
  boost_cooldown (gesture_recognizer b') = (if boost then 10 else boost_cooldown g) ∧
  pause_triggered b' =
    (if Gesture.is_closed_fist kp then pause || pause_triggered b else false) ∧
  pause_cooldown (gesture_recognizer b') = (if pause then 30 else pause_cooldown g).
Proof.
  cbv zeta. unfold Bridge.update.
  set (g := Gesture.update (gesture_recognizer b) pos kp).
  destruct (get_direction_cooldowns g kp) as [Hpc Hbc].
  destruct (Gesture.get_direction g kp) as [dir g2]. cbn [snd] in Hpc, Hbc.
  set (b0 := Bridge.set_recognizer g2 b).
  destruct (update_direction_frame b0 dir) as (Hg & Hb & Hp).
  set (b1 := Bridge._update_direction b0 dir) in *.
  unfold Bridge._update_boost, Bridge._update_pause,
    Gesture.trigger_boost, Gesture.trigger_pause.
  assert (Hg' : gesture_recognizer b1 = g2) by (by rewrite Hg).
  assert (Hp' : pause_triggered b1 = pause_triggered b) by (by rewrite Hp).
  clearbody b1. clear Hg Hb Hp b0.
  destruct (Gesture.is_open_palm kp), (Gesture.is_closed_fist kp),
    (boost_cooldown g =? 0) eqn:Eb, (pause_cooldown g =? 0) eqn:Ep;
    cbn; repeat (progress (rewrite ?Hg', ?Hpc, ?Hbc, ?Ep, ?Eb, ?Hp'; cbn)); done.
Qed.

Lemma pause_readings_pattern inputs : ∀ b,
  Forall fist_held inputs →
  pause_triggered b = false ∨ pause_cooldown (gesture_recognizer b) = 0 →
  Ticks.pause_readings b inputs =
    cooldown_pattern 30 (pause_cooldown (gesture_recognizer b)) (length inputs).
Proof.
  induction inputs as [|[pos kp] rest IH]; intros b Hheld Hstart; [done|].
  apply Forall_cons in Hheld as [[Hpos Hfist] Hrest].
  cbn [fst snd] in Hpos, Hfist. destruct Hpos as [p ->].
  cbn [Ticks.pause_readings length cooldown_pattern fst snd].
  destruct (update_view b (Some p) kp) as (_ & _ & Htrig & Hcool).
  rewrite Hfist in Htrig, Hcool. cbn [andb] in Htrig, Hcool.
  destruct (update_with_position_ticks (gesture_recognizer b) p kp) as (Hpc & _).
  cbv zeta in Hpc. rewrite Hpc in Htrig, Hcool.
  set (c' := if 0 <? pause_cooldown (gesture_recognizer b)
             then pause_cooldown (gesture_recognizer b) - 1
             else pause_cooldown (gesture_recognizer b)) in *.
  unfold Bridge.get_pause_trigger.
  destruct (c' =? 0) eqn:Ec.
  - cbn [orb] in Htrig. rewrite Htrig. f_equal.
    rewrite IH; [by rewrite <- Hcool | done | by left].
  - assert (pause_triggered b = false) as Hb.
    { destruct Hstart as [?|Hz]; [done|]. subst c'. rewrite Hz in Ec. done. }
    rewrite Hb in Htrig. cbn [orb] in Htrig. rewrite Htrig. f_equal.
    rewrite IH; [by rewrite Hcool | done | by left].
Qed.

Lemma pause_readings_length inputs : ∀ b,
  length (Ticks.pause_readings b inputs) = length inputs.
Proof.
  induction inputs as [|i rest IH]; intros b; [done|].
  cbn [Ticks.pause_readings]. destruct (Bridge.get_pause_trigger _) as [reading b'].
  cbn [length]. by rewrite IH.
Qed.

Lemma position_samples_length inputs :
  (position_samples inputs <= length inputs)%nat.
Proof.
  unfold position_samples.
  induction inputs as [|[[p|] kp] rest IH]; cbn; lia.
Qed.

Lemma position_samples_take k inputs :
  (position_samples (take k inputs) <= position_samples inputs)%nat.
Proof.
  rewrite <- (take_drop k inputs) at 2. unfold position_samples.
  rewrite omap_app, length_app. lia.
Qed.

Lemma position_samples_take_S k inputs (i : Sample) :
  inputs !! k = Some i → is_Some i.1 →
  position_samples (take (S k) inputs) = S (position_samples (take k inputs)).
Proof.
  intros Hi [p Hp]. rewrite (take_S_r _ _ _ Hi). unfold position_samples.
  rewrite omap_app, length_app. cbn. rewrite Hp. cbn. lia.
Qed.

Lemma all_false (l : list bool) :
  (∀ k, l !! k ≠ Some true) → l = replicate (length l) false.
Proof.
  induction l as [|x l IH]; intros Hl; [done|].
  cbn [length replicate]. f_equal.
  - specialize (Hl 0%nat). by destruct x.
  - apply IH. intros k. apply (Hl (S k)).
Qed.

(** While the fist stays closed and the cooldown is running, the tick that
    reads true is the one that carries the sample on which the counter
    reaches zero: ticks without a position do not count. *)
Lemma pause_readings_count inputs : ∀ b,
  0 < pause_cooldown (gesture_recognizer b) →
  pause_triggered b = false →
  Forall fist_closed inputs →
  Z.of_nat (position_samples inputs) < pause_cooldown (gesture_recognizer b) + 30 →
  ∀ k, Ticks.pause_readings b inputs !! k = Some true ↔
       (∃ i : Sample, inputs !! k = Some i ∧ is_Some i.1) ∧
       Z.of_nat (position_samples (take (S k) inputs)) =
         pause_cooldown (gesture_recognizer b).
Proof.
  induction inputs as [|[pos kp] rest IH]; intros b Hc Ht Hheld Hcount k.
  { split; [done|]. by intros [(i & Hi & _) _]. }
  apply Forall_cons in Hheld as [Hfist Hrest].
  unfold fist_closed in Hfist. cbn [snd] in Hfist.
  cbn [Ticks.pause_readings fst snd].
  destruct (update_view b pos kp) as (_ & _ & Htrig & Hcool).
  rewrite Hfist, Ht in Htrig. rewrite Hfist in Hcool.
  cbn [andb] in Htrig, Hcool. rewrite orb_false_r in Htrig.
  unfold Bridge.get_pause_trigger.
  destruct pos as [p|].
  - destruct (update_with_position_ticks (gesture_recognizer b) p kp) as (Hpc & _).
    cbv zeta in Hpc. rewrite Hpc in Htrig, Hcool.
    destruct (Z.ltb_spec 0 (pause_cooldown (gesture_recognizer b))) as [_|?]; [|lia].
    assert (Hpos : position_samples ((Some p, kp) :: rest) = S (position_samples rest))
      by done.
    rewrite Hpos in Hcount.
    destruct (Z.eqb_spec (pause_cooldown (gesture_recognizer b) - 1) 0) as [Hz|Hnz].
    + rewrite Htrig. destruct k as [|k].
      * cbn. split; [intros _|done].
        split; [eexists; split; [reflexivity|by eexists]|].
        rewrite take_0. cbn. lia.
      * cbn [lookup list_lookup].
        pose proof (position_samples_take (S k) rest) as Hle.
        rewrite IH; [|cbn [gesture_recognizer Bridge.set_pause pause_triggered];
                       rewrite ?Hcool; try done; lia..].
        cbn [gesture_recognizer Bridge.set_pause]. rewrite Hcool.
        split; intros [(i & Hi & Hsome) Hn]; [lia|].
        pose proof (position_samples_take_S k rest i Hi Hsome) as HS.
        change (take (S (S k)) ((Some p, kp) :: rest))
          with ((Some p, kp) :: take (S k) rest) in Hn.
        change (position_samples ((Some p, kp) :: take (S k) rest))
          with (S (position_samples (take (S k) rest))) in Hn.
        lia.
    + rewrite Htrig. destruct k as [|k].
      * cbn. split; [done|]. intros [_ Hn]. rewrite take_0 in Hn.
        cbn in Hn. lia.
      * cbn [lookup list_lookup].
        rewrite IH; [|rewrite ?Hcool; try done; lia..].
        rewrite Hcool.
        change (take (S (S k)) ((Some p, kp) :: rest))
          with ((Some p, kp) :: take (S k) rest).
        change (position_samples ((Some p, kp) :: take (S k) rest))
          with (S (position_samples (take (S k) rest))).
        split; intros [Hi Hn]; (split; [done|lia]).
  - change (Gesture.update (gesture_recognizer b) None kp) with (gesture_recognizer b)
      in Htrig, Hcool.
    destruct (Z.eqb_spec (pause_cooldown (gesture_recognizer b)) 0) as [?|_]; [lia|].
    rewrite Htrig. destruct k as [|k].
    + cbn. split; [done|]. intros [(i & [= <-] & [? ?]) _]. done.
    + cbn [lookup list_lookup].
      rewrite IH; [|rewrite ?Hcool; try done..].
      rewrite Hcool. done.
Qed.

(** C5 (amended): starting from a zero pause cooldown, with a closed fist at
    each of 40 consecutive ticks and one [update] and one [get_pause_trigger]
    per tick, tick 1 reads true, and a later tick reads true exactly when it
    carries the 30th position sample after tick 1; every other tick reads
    false.  Ticks are counted from 0 in the statement.  When every tick
    carries a position sample the readings are true at ticks 1 and 31 only;
    when fewer than 30 of the ticks after the first carry one, only tick 1
    reads true. *)
Theorem pause_fires_on_thirtieth_position b inputs :
  pause_cooldown (gesture_recognizer b) = 0 →
  length inputs = 40%nat →
  Forall fist_closed inputs →
  length (Ticks.pause_readings b inputs) = 40%nat ∧
  (∀ k, Ticks.pause_readings b inputs !! k = Some true ↔
        k = 0%nat ∨
        (∃ i : Sample, inputs !! k = Some i ∧ is_Some i.1) ∧
        position_samples (take k (drop 1 inputs)) = 30%nat) ∧
  (Forall (λ i : Sample, is_Some i.1) inputs →
   Ticks.pause_readings b inputs =
     [true] ++ replicate 29 false ++ [true] ++ replicate 9 false) ∧
  ((position_samples (drop 1 inputs) < 30)%nat →
   Ticks.pause_readings b inputs = [true] ++ replicate 39 false).
Proof.
  intros Hzero Hlen Hheld.
  assert (Hchar : ∀ k, Ticks.pause_readings b inputs !! k = Some true ↔
            k = 0%nat ∨
            (∃ i : Sample, inputs !! k = Some i ∧ is_Some i.1) ∧
            position_samples (take k (drop 1 inputs)) = 30%nat).
  { destruct inputs as [|[pos kp] rest]; [done|].
    apply Forall_cons in Hheld as [Hfist Hrest].
    unfold fist_closed in Hfist. cbn [snd] in Hfist.
    cbn [length] in Hlen. change (drop 1 ((pos, kp) :: rest)) with rest.
    cbn [Ticks.pause_readings fst snd].
    destruct (update_view b pos kp) as (_ & _ & Htrig & Hcool).
    rewrite Hfist in Htrig, Hcool. cbn [andb] in Htrig, Hcool.
    assert (Hafter : pause_cooldown (Gesture.update (gesture_recognizer b) pos kp) = 0).
    { destruct pos as [p|]; [|done].
      destruct (update_with_position_ticks (gesture_recognizer b) p kp) as (-> & _).
      rewrite Hzero. done. }
    rewrite Hafter in Htrig, Hcool. cbn in Htrig, Hcool.
    unfold Bridge.get_pause_trigger. rewrite Htrig.
    intros [|k].
    - cbn. split; [by left|done].
    - cbn [lookup list_lookup].
      pose proof (position_samples_length rest) as Hmax.
      rewrite pause_readings_count;
        [|cbn [gesture_recognizer Bridge.set_pause pause_triggered];
          rewrite ?Hcool; try done; lia..].
      cbn [gesture_recognizer Bridge.set_pause]. rewrite Hcool. split.
      + intros [Hi Hn]. right. split; [done|lia].
      + intros [?|[Hi Hn]]; [done|]. split; [done|lia]. }
  split_and!.
  - by rewrite pause_readings_length.
  - exact Hchar.
  - intros Hpos. rewrite pause_readings_pattern; [| |by right].
    + rewrite Hzero, Hlen. vm_compute. reflexivity.
    + apply Forall_forall. intros i Hi. split.
      * by eapply Forall_forall in Hpos.
      * by eapply Forall_forall in Hheld.
  - intros Hfew.
    pose proof (pause_readings_length inputs b) as Hrl. rewrite Hlen in Hrl.
    destruct (Ticks.pause_readings b inputs) as [|r readings] eqn:Hr; [done|].
    assert (r = true) as ->.
    { assert (Some r = Some true) as [= ->]; [|done].
      change (Some r) with ((r :: readings) !! 0%nat). apply Hchar. by left. }
    cbn [app]. f_equal.
    cbn [length] in Hrl. injection Hrl as Hrl.
    rewrite <- Hrl. apply all_false.
    intros k Hk.
    assert ((true :: readings) !! S k = Some true) as Hk' by done.
    apply Hchar in Hk' as [?|[_ Hn]]; [done|].
    pose proof (position_samples_take (S k) (drop 1 inputs)). lia.
Qed.

Lemma boost_readings_pattern inputs : ∀ b,
  Forall palm_held inputs →
  Ticks.boost_readings b inputs =
    cooldown_pattern 10 (boost_cooldown (gesture_recognizer b)) (length inputs).
Proof.
  induction inputs as [|[pos kp] rest IH]; intros b Hheld; [done|].
  apply Forall_cons in Hheld as [[Hpos Hpalm] Hrest].
  cbn [fst snd] in Hpos, Hpalm. destruct Hpos as [p ->].
  cbn [Ticks.boost_readings length cooldown_pattern fst snd].
  destruct (update_view b (Some p) kp) as (Hact & Hcool & _).
  rewrite Hpalm in Hact, Hcool. cbn [andb] in Hact, Hcool.
  destruct (update_with_position_ticks (gesture_recognizer b) p kp) as (_ & Hbc & _).
  cbv zeta in Hbc. rewrite Hbc in Hact, Hcool.
  unfold Bridge.get_boost. rewrite Hact.
  rewrite IH by done. rewrite Hcool.
  by destruct (_ =? 0).
Qed.

(** C6: after every [update], boost is active exactly when the palm is open
    at that tick and the boost cooldown is zero when [trigger_boost] is
    asked; and from a zero boost cooldown, 25 consecutive ticks that each
    carry a position sample and an open palm have boost active exactly at
    ticks 1, 11 and 21. *)
Theorem boost_is_level_triggered :
  (∀ b pos kp,
     boost_active (Bridge.update b pos kp) =
       Gesture.is_open_palm kp &&
       (boost_cooldown (Gesture.update (gesture_recognizer b) pos kp) =? 0)) ∧
  (∀ b inputs,
     boost_cooldown (gesture_recognizer b) = 0 →
     length inputs = 25%nat →
     Forall palm_held inputs →
     Ticks.boost_readings b inputs =
       [true] ++ replicate 9 false ++ [true] ++ replicate 9 false ++
       [true] ++ replicate 4 false).
Proof.
  split.
  - intros b pos kp. by destruct (update_view b pos kp) as (-> & _).
  - intros b inputs Hzero Hlen Hheld.
    rewrite boost_readings_pattern by done.
    rewrite Hzero, Hlen. vm_compute. reflexivity.
Qed.

End Cooldowns.

(** C5 as the specification states it does not hold: the cooldown counts
    position samples, not calls.  When the forty ticks of the closed fist
    carry no position, the counter armed at tick 1 never runs down and
    tick 31 reads false; when a single tick, the fifth, carries none, the
    second true reading comes at tick 32. *)
Lemma pause_cooldown_waits_for_position :
  let lost := replicate 40 (None, Some fist_keypoints) : list Sample in
  let dropout :=
    replicate 4 (Some (320, 240), Some fist_keypoints) ++
    [(None, Some fist_keypoints)] ++
    replicate 35 (Some (320, 240), Some fist_keypoints) : list Sample in
  pause_cooldown (gesture_recognizer Bridge.init) = 0 ∧
  length lost = 40%nat ∧ Forall fist_closed lost ∧
  Ticks.pause_readings Bridge.init lost = [true] ++ replicate 39 false ∧
  Ticks.pause_readings Bridge.init lost ≠
    [true] ++ replicate 29 false ++ [true] ++ replicate 9 false ∧
  length dropout = 40%nat ∧ Forall fist_closed dropout ∧
  Ticks.pause_readings Bridge.init dropout =
    [true] ++ replicate 30 false ++ [true] ++ replicate 8 false ∧
  Ticks.pause_readings Bridge.init dropout ≠
    [true] ++ replicate 29 false ++ [true] ++ replicate 9 false.
Proof.
  assert (Hfist : Gesture.is_closed_fist (Some fist_keypoints) = true)
    by (vm_compute; reflexivity).
  cbv zeta. split_and!.
  - reflexivity.
  - reflexivity.
  - apply Forall_replicate. exact Hfist.
  - vm_compute. reflexivity.
  - vm_compute. discriminate.
  - reflexivity.
  - apply Forall_app_2; [|apply Forall_app_2].
    + apply Forall_replicate. exact Hfist.
    + apply Forall_singleton. exact Hfist.
    + apply Forall_replicate. exact Hfist.
  - vm_compute. reflexivity.
  - vm_compute. discriminate.
Qed.

(** Forty ticks of the closed hand in front of a fresh bridge, on binary64:
    with a position at every tick the readings are true at ticks 1 and 31,
    and with none at the fifth tick the second true reading is at tick 32
    (index 31), the tick of the 30th sample after the first. *)
Lemma pause_fires_on_thirtieth_position_witness :
  let dropout :=
    replicate 4 (Some (320, 240), Some fist_keypoints) ++
    [(None, Some fist_keypoints)] ++
    replicate 35 (Some (320, 240), Some fist_keypoints) : list Sample in
  Ticks.pause_readings Bridge.init (replicate 40 (Some (320, 240), Some fist_keypoints)) =
    [true] ++ replicate 29 false ++ [true] ++ replicate 9 false ∧
  Ticks.pause_readings Bridge.init dropout !! 31%nat = Some true ∧
  Ticks.pause_readings Bridge.init dropout !! 30%nat ≠ Some true.
Proof.
  assert (Hfist : Gesture.is_closed_fist (Some fist_keypoints) = true)
    by (vm_compute; reflexivity).
  assert (Hdrop : Forall fist_closed
            (replicate 4 (Some (320, 240), Some fist_keypoints) ++
             [(None, Some fist_keypoints)] ++
             replicate 35 (Some (320, 240), Some fist_keypoints))).
  { apply Forall_app_2; [|apply Forall_app_2].
    - apply Forall_replicate. exact Hfist.
    - apply Forall_singleton. exact Hfist.
    - apply Forall_replicate. exact Hfist. }
  cbv zeta. split_and!.
  - apply (pause_fires_on_thirtieth_position Bridge.init
             (replicate 40 (Some (320, 240), Some fist_keypoints))).
    + reflexivity.
    + reflexivity.
    + apply Forall_replicate. exact Hfist.
    + apply Forall_replicate. by eexists.
  - apply (pause_fires_on_thirtieth_position Bridge.init
             (replicate 4 (Some (320, 240), Some fist_keypoints) ++
             [(None, Some fist_keypoints)] ++
             replicate 35 (Some (320, 240), Some fist_keypoints)) eq_refl eq_refl Hdrop).
    right. split; [eexists; split; [reflexivity|by eexists]|].
    vm_compute. reflexivity.
  - intros Htrue.
    apply (pause_fires_on_thirtieth_position Bridge.init
             (replicate 4 (Some (320, 240), Some fist_keypoints) ++
             [(None, Some fist_keypoints)] ++
             replicate 35 (Some (320, 240), Some fist_keypoints)) eq_refl eq_refl Hdrop) in Htrue.
    destruct Htrue as [Hk|[_ Hn]]; [discriminate Hk|].
    vm_compute in Hn. discriminate Hn.
Defined.

(** Twenty-five ticks of the spread hand in front of a fresh bridge. *)
Lemma boost_is_level_triggered_witness :
  Ticks.boost_readings Bridge.init (replicate 25 (Some (320, 240), Some palm_keypoints)) =
    [true] ++ replicate 9 false ++ [true] ++ replicate 9 false ++
    [true] ++ replicate 4 false.
Proof.
  apply (proj2 boost_is_level_triggered Bridge.init
           (replicate 25 (Some (320, 240), Some palm_keypoints))).
  - reflexivity.
  - reflexivity.
  - apply Forall_replicate. split; [by eexists|]. vm_compute. reflexivity.
Defined.

(** ** The game engine: food spawn *)

(** The world after one turn of the loop in [_spawn_food]. *)
Lemma spawn_food_step fuel w :
  0 < grid_width (game w) → 0 < grid_height (game w) →
  let w2 := {| game := game w;
               rng := {| entropy := entropy (rng w); calls := S (S (calls (rng w))) |} |} in
  Engine._spawn_food (S fuel) w =
    if bool_decide (candidate (game w) (rng w) 0 ∉ snake (game w))
    then (Ok (candidate (game w) (rng w) 0), w2)
    else Engine._spawn_food fuel w2.
Proof.
  intros Hw Hh. cbn [Engine._spawn_food]. unfold bind, get_self, randint, ret.
  cbn [game rng entropy calls].
  destruct (Z.ltb_spec (grid_width (game w) - 1) 0) as [?|_]; [lia|].
  destruct (Z.ltb_spec (grid_height (game w) - 1) 0) as [?|_]; [lia|].
  unfold candidate, draw.
  replace (grid_width (game w) - 1 - 0 + 1) with (grid_width (game w)) by lia.
  replace (grid_height (game w) - 1 - 0 + 1) with (grid_height (game w)) by lia.
  replace (calls (rng w) + 2 * 0)%nat with (calls (rng w)) by lia.
  replace (calls (rng w) + 1)%nat with (S (calls (rng w))) by lia.
  rewrite !Z.add_0_l. cbn [game rng entropy calls].
  by destruct (bool_decide _).
Qed.

Lemma candidate_shift self e c k :
  candidate self {| entropy := e; calls := S (S c) |} k =
  candidate self {| entropy := e; calls := c |} (S k).
Proof.
  unfold candidate, draw. cbn [entropy calls].
  by replace (S (S c) + 2 * k)%nat with (c + 2 * S k)%nat by lia.
Qed.

(** [_spawn_food] only draws: the game object is the same afterwards. *)
Lemma spawn_food_game fuel : ∀ w, game (Engine._spawn_food fuel w).2 = game w.
Proof.
  induction fuel as [|fuel IH]; intros w; [done|].
  cbn [Engine._spawn_food]. unfold bind, get_self, randint, ret.
  repeat (case_match; simplify_eq; cbn [fst snd game]; try done).
  by rewrite IH.
Qed.

(** With positive dimensions [_spawn_food] never raises. *)
Lemma spawn_food_no_raise fuel : ∀ w e,
  0 < grid_width (game w) → 0 < grid_height (game w) →
  (Engine._spawn_food fuel w).1 ≠ Raise e.
Proof.
  induction fuel as [|fuel IH]; intros w e Hw Hh; [done|].
  rewrite spawn_food_step by done. cbv zeta.
  case_bool_decide; [done|]. by apply IH.
Qed.

(** What [_spawn_food] returns is a cell of the grid off the snake. *)
Lemma spawn_food_ok fuel : ∀ w c,
  0 < grid_width (game w) → 0 < grid_height (game w) →
  (Engine._spawn_food fuel w).1 = Ok c →
  in_grid (game w) c ∧ c ∉ snake (game w).
Proof.
  induction fuel as [|fuel IH]; intros w c Hw Hh; [done|].
  rewrite spawn_food_step by done. cbv zeta.
  case_bool_decide as Hfree.
  - cbn [fst]. intros [= <-]. split; [|done].
    unfold in_grid, candidate, draw. cbn [fst snd].
    split; by apply Z.mod_pos_bound.
  - intros Hc. by apply IH in Hc.
Qed.

(** A turn that draws a free cell within the fuel makes the loop return. *)
Lemma spawn_food_returns fuel : ∀ w k,
  0 < grid_width (game w) → 0 < grid_height (game w) →
  (k < fuel)%nat →
  candidate (game w) (rng w) k ∉ snake (game w) →
  ∃ c, (Engine._spawn_food fuel w).1 = Ok c.
Proof.
  induction fuel as [|fuel IH]; intros w k Hw Hh Hk Hfree; [lia|].
  rewrite spawn_food_step by done. cbv zeta.
  case_bool_decide as Hfree0; [by eexists|].
  destruct k as [|k]; [done|].
  apply (IH _ k); cbn [game rng]; try done; [lia|].
  by rewrite candidate_shift; destruct (rng w).
Qed.

(** When every cell of the grid is on the snake the loop does not return,
    whatever is drawn. *)
Lemma spawn_food_hangs fuel : ∀ w,
  0 < grid_width (game w) → 0 < grid_height (game w) →
  (∀ c, in_grid (game w) c → c ∈ snake (game w)) →
  (Engine._spawn_food fuel w).1 = OutOfFuel.
Proof.
  induction fuel as [|fuel IH]; intros w Hw Hh Hfull; [done|].
  rewrite spawn_food_step by done. cbv zeta.
  case_bool_decide as Hfree.
  - exfalso. apply Hfree, Hfull.
    unfold in_grid, candidate, draw. cbn [fst snd].
    split; by apply Z.mod_pos_bound.
  - by apply IH.
Qed.

(** ** The game engine: the movement step *)

(** Reads of attributes through the setters. *)
Ltac fields :=
  cbn [game rng entropy calls fst snd
       grid_width grid_height cell_size snake direction next_direction score
       game_over paused food base_speed boost_speed speed_counter
       Engine.set_snake Engine.set_direction Engine.set_next_direction
       Engine.set_score Engine.set_game_over Engine.set_paused Engine.set_food
       Engine.set_speed_counter Engine.set_speeds] in *.

(** [_move_snake] case by case. *)
Lemma move_snake_unfold fuel w :
  Engine._move_snake fuel w =
    let self := Engine.set_direction (next_direction (game w)) (game w) in
    match new_head_of (game w) with
    | None => (Raise IndexError, {| game := self; rng := rng w |})
    | Some new_head =>
        if bool_decide (in_grid (game w) new_head) then
          if bool_decide (new_head ∈ snake (game w)) then
            (Ok tt, {| game := Engine.set_game_over true self; rng := rng w |})
          else if bool_decide (new_head = food (game w)) then
            let grown := Engine.set_score (score (game w) + 10)
                           (Engine.set_snake (new_head :: snake (game w)) self) in
            match Engine._spawn_food fuel {| game := grown; rng := rng w |} with
            | (Ok f, w2) => (Ok tt, {| game := Engine.set_food f (game w2); rng := rng w2 |})
            | (Raise e, w2) => (Raise e, w2)
            | (OutOfFuel, w2) => (OutOfFuel, w2)
            end
          else
            (Ok tt, {| game := Engine.set_snake (removelast (new_head :: snake (game w))) self;
                       rng := rng w |})
        else (Ok tt, {| game := Engine.set_game_over true self; rng := rng w |})
    end.
Proof.
  unfold Engine._move_snake, new_head_of, bind, modify, get_self, raise.
  fields.
  destruct (snake (game w)) as [|[head_x head_y] rest] eqn:Hsnake; [done|].
  destruct (Engine.direction_map (next_direction (game w))) as [dx dy].
  fields.
  set (new_head := (head_x + dx, head_y + dy)).
  assert (Hwall : ((head_x + dx <? 0) || (grid_width (game w) <=? head_x + dx) ||
                   (head_y + dy <? 0) || (grid_height (game w) <=? head_y + dy))
                  = negb (bool_decide (in_grid (game w) new_head))).
  { unfold in_grid, new_head. cbn [fst snd].
    case_bool_decide as Hin; cbn [negb].
    - repeat (apply orb_false_intro); (apply Z.ltb_ge || apply Z.leb_gt); lia.
    - destruct (Z.ltb_spec (head_x + dx) 0), (Z.leb_spec (grid_width (game w)) (head_x + dx)),
        (Z.ltb_spec (head_y + dy) 0), (Z.leb_spec (grid_height (game w)) (head_y + dy));
        cbn; try reflexivity. exfalso. apply Hin. lia. }
  rewrite Hwall.
  destruct (bool_decide (in_grid (game w) new_head)); cbn [negb]; [|done].
  destruct (bool_decide (new_head ∈ (head_x, head_y) :: rest)); [done|].
  destruct (bool_decide (new_head = food (game w))); fields;
    rewrite ?Hsnake; reflexivity.
Qed.

(** A colliding step: only the committed direction and the flag change. *)
Lemma move_snake_collision fuel w new_head :
  new_head_of (game w) = Some new_head →
  collides (game w) new_head →
  Engine._move_snake fuel w =
    (Ok tt, {| game := Engine.set_game_over true
                         (Engine.set_direction (next_direction (game w)) (game w));
               rng := rng w |}).
Proof.
  intros Hnh Hcol. rewrite move_snake_unfold, Hnh. cbv zeta.
  case_bool_decide as Hin; [|done].
  case_bool_decide as Hmem; [done|].
  by destruct Hcol.
Qed.

(** [update] case by case. *)
Lemma update_unfold fuel cmd boost w :
  Engine.update fuel cmd boost w =
    if game_over (game w) || paused (game w) then (Ok tt, w)
    else
      let staged := Engine.set_next_direction (buffered (game w) cmd) (game w) in
      if (if boost then boost_speed (game w) else base_speed (game w))
           <=? speed_counter (game w) + 1
      then Engine._move_snake fuel {| game := Engine.set_speed_counter 0 staged; rng := rng w |}
      else (Ok tt, {| game := Engine.set_speed_counter (speed_counter (game w) + 1) staged;
                      rng := rng w |}).
Proof.
  destruct w as [self r]. destruct self.
  unfold Engine.update, buffered, bind, modify, get_self, ret.
  cbn [game rng game_over paused direction next_direction speed_counter
       boost_speed base_speed].
  destruct (game_over0 || paused0); [done|].
  destruct cmd as [d|]; [destruct (bool_decide (d ≠ opposite direction0))|];
    cbn -[Engine._move_snake Z.add Z.leb];
    destruct boost; destruct (_ <=? _); reflexivity.
Qed.

(** C2 as the specification states it does not hold: the flag is not the
    only attribute a colliding step changes.  The curled snake, committed to
    UP with RIGHT buffered, steps onto its own tail cell (6, 5): the flag is
    set, and the committed direction is RIGHT after the step. *)
Lemma collision_commits_direction :
  game_over (game curled) = false ∧ paused (game curled) = false ∧
  new_head_of (game curled) = Some (6, 5) ∧
  collides (game curled) (6, 5) ∧
  game_over (game (Engine._move_snake 5 curled).2) = true ∧
  direction (game curled) = UP ∧
  direction (game (Engine._move_snake 5 curled).2) = RIGHT ∧
  (Engine._move_snake 5 curled).2 ≠
    {| game := Engine.set_game_over true (game curled); rng := rng curled |}.
Proof.
  split_and!; try (vm_compute; reflexivity).
  - right. compute_done.
  - intros Heq. apply (f_equal (λ w, direction (game w))) in Heq.
    vm_compute in Heq. discriminate.
Qed.

(** C2 (amended): when the cell a movement step computes is outside the grid
    or on any cell of the snake (the tail included), the step returns with
    the game-over flag set and with the snake, the food and the score as
    they were.  The flag is not the only change: the step has committed the
    buffered direction before it looks at the new head, and an [update] of a
    running, unpaused game at which the step is due has stored the accepted
    direction command in [next_direction] and set [speed_counter] to 0.
    Every other attribute, and the random module, are as before. *)
Theorem collision_keeps_snake_food_score fuel w new_head :
  (new_head_of (game w) = Some new_head →
   collides (game w) new_head →
   let out := Engine._move_snake fuel w in
   out.1 = Ok tt ∧
   game_over (game out.2) = true ∧
   snake (game out.2) = snake (game w) ∧
   food (game out.2) = food (game w) ∧
   score (game out.2) = score (game w) ∧
   direction (game out.2) = next_direction (game w) ∧
   out.2 = {| game := Engine.set_game_over true
                        (Engine.set_direction (next_direction (game w)) (game w));
              rng := rng w |})
  ∧
  (∀ cmd boost,
     game_over (game w) = false →
     paused (game w) = false →
     step_due (game w) boost →
     new_head_of (Engine.set_next_direction (buffered (game w) cmd) (game w)) = Some new_head →
     collides (game w) new_head →
     let out := Engine.update fuel cmd boost w in
     out.1 = Ok tt ∧
     game_over (game out.2) = true ∧
     snake (game out.2) = snake (game w) ∧
     food (game out.2) = food (game w) ∧
     score (game out.2) = score (game w) ∧
     direction (game out.2) = buffered (game w) cmd ∧
     next_direction (game out.2) = buffered (game w) cmd ∧
     speed_counter (game out.2) = 0 ∧
     out.2 = {| game := Engine.set_game_over true
                          (Engine.set_direction (buffered (game w) cmd)
                             (Engine.set_speed_counter 0
                                (Engine.set_next_direction (buffered (game w) cmd) (game w))));
                rng := rng w |}).
Proof.
  split.
  - intros Hnh Hcol. cbv zeta.
    rewrite (move_snake_collision fuel w new_head) by done. by fields.
  - intros cmd boost Hrun Hplay Hdue Hnh Hcol. cbv zeta.
    rewrite update_unfold, Hrun, Hplay. cbn [orb]. cbv zeta.
    unfold step_due in Hdue.
    destruct (Z.leb_spec (if boost then boost_speed (game w) else base_speed (game w))
                (speed_counter (game w) + 1)) as [_|?]; [|lia].
    rewrite (move_snake_collision fuel _ new_head); [by fields| |].
    + revert Hnh. unfold new_head_of. by fields.
    + revert Hcol. unfold collides, in_grid. by fields.
Qed.

(** ** The game engine: the committed direction *)

Lemma move_snake_directions fuel w :
  direction (game (Engine._move_snake fuel w).2) = next_direction (game w) ∧
  next_direction (game (Engine._move_snake fuel w).2) = next_direction (game w).
Proof.
  rewrite move_snake_unfold. cbv zeta.
  destruct (new_head_of (game w)) as [new_head|]; [|done].
  repeat case_bool_decide; try done.
  match goal with |- context [Engine._spawn_food fuel ?w1] =>
    pose proof (spawn_food_game fuel w1) as Hgame;
    destruct (Engine._spawn_food fuel w1) as [[f|e|] w2] end;
    fields; by rewrite Hgame.
Qed.

Lemma buffered_ok self cmd : staged_ok self → buffered self cmd ≠ opposite (direction self).
Proof.
  unfold staged_ok, buffered. intros Hok.
  destruct cmd as [d|]; [|done]. by case_bool_decide.
Qed.

Lemma opposite_irrefl d : d ≠ opposite d.
Proof. by destruct d. Qed.

(** Every call commits a direction that is not the opposite of the one
    committed before, and leaves a buffered direction that is not either. *)
Lemma perform_commit fuel c w :
  staged_ok (game w) →
  engine_commit (direction (game w)) (direction (game (perform fuel c w).2)) ∧
  staged_ok (game (perform fuel c w).2).
Proof.
  intros Hok. destruct c as [cmd boost|]; cbn [perform].
  - rewrite update_unfold.
    destruct (game_over (game w) || paused (game w)).
    { split; [apply opposite_irrefl | done]. }
    cbv zeta. destruct (_ <=? _).
    + unfold staged_ok, engine_commit.
      destruct (move_snake_directions fuel
        {| game := Engine.set_speed_counter 0
                     (Engine.set_next_direction (buffered (game w) cmd) (game w));
           rng := rng w |}) as [-> ->].
      fields. split; [by apply buffered_ok | apply opposite_irrefl].
    + unfold staged_ok, engine_commit. fields.
      split; [apply opposite_irrefl | by apply buffered_ok].
  - unfold Engine.toggle_pause, bind, get_self, modify, ret.
    destruct (negb (game_over (game w))); fields;
      (split; [apply opposite_irrefl | done]).
Qed.

Lemma run_calls_chain fuel calls : ∀ w,
  staged_ok (game w) →
  chain engine_commit (direction (game w))
    (map (λ w', direction (game w')) (run_calls fuel calls w)).
Proof.
  induction calls as [|c rest IH]; intros w Hok; [done|].
  destruct (perform_commit fuel c w Hok) as [Hcommit Hok'].
  cbn [run_calls].
  destruct (perform fuel c w) as [[[]|e|] w']; cbn [map chain snd] in *.
  - split; [done|]. by apply IH.
  - done.
  - done.
Qed.

Lemma reset_directions fuel w :
  direction (game (Engine.reset fuel w).2) = RIGHT ∧
  next_direction (game (Engine.reset fuel w).2) = RIGHT.
Proof.
  unfold Engine.reset, bind, get_self, modify. fields.
  match goal with |- context [Engine._spawn_food fuel ?w1] =>
    pose proof (spawn_food_game fuel w1) as Hgame;
    destruct (Engine._spawn_food fuel w1) as [[f|e|] w2] end;
    fields; by rewrite Hgame.
Qed.

(** ** The control bridge: the committed direction *)

Lemma update_boost_pause_frame b palm fist :
  last_move_direction (Bridge._update_pause (Bridge._update_boost b palm) fist)
    = last_move_direction b ∧
  current_direction (Bridge._update_pause (Bridge._update_boost b palm) fist)
    = current_direction b.
Proof.
  unfold Bridge._update_pause, Bridge._update_boost.
  by repeat (case_match; cbn).
Qed.

Lemma update_direction_commit b direction :
  let b' := Bridge._update_direction b direction in
  last_move_direction b' = last_move_direction b ∨
  ∃ d, direction = Some d ∧ last_move_direction b' = Some d ∧
       current_direction b' = Some d ∧
       ∀ p, last_move_direction b = Some p → d ≠ opposite p.
Proof.
  unfold Bridge._update_direction.
  destruct direction as [d|]; [|by left].
  destruct (last_move_direction b) as [last|] eqn:Hlast.
  - case_bool_decide as Hopp; [|by left].
    right. exists d. cbn. repeat split; try done. by intros p [= <-].
  - right. exists d. cbn. by repeat split.
Qed.

Section Committed.
Context `{Numpy}.

Lemma bridge_update_commit b i :
  let b' := Bridge.update b i.1 i.2 in
  last_move_direction b' = last_move_direction b ∨
  ∃ d, classified b i = Some d ∧ last_move_direction b' = Some d ∧
       current_direction b' = Some d ∧
       ∀ p, last_move_direction b = Some p → d ≠ opposite p.
Proof.
  cbv zeta. unfold Bridge.update, classified.
  destruct (Gesture.get_direction _ _) as [dir g2]. cbn [fst].
  destruct (update_boost_pause_frame
              (Bridge._update_direction (Bridge.set_recognizer g2 b) dir)
              (Gesture.is_open_palm i.2) (Gesture.is_closed_fist i.2)) as [-> ->].
  apply (update_direction_commit (Bridge.set_recognizer g2 b) dir).
Qed.

Lemma bridge_run_chain inputs : ∀ b,
  chain bridge_commit (last_move_direction b)
    (map last_move_direction (Ticks.run b inputs)).
Proof.
  induction inputs as [|i rest IH]; intros b; [done|].
  cbn [Ticks.run map chain]. split; [|apply IH].
  destruct (bridge_update_commit b i) as [Hsame|(d & _ & Hnew & _ & Hopp)].
  - by left.
  - right. by exists d.
Qed.

(** C1: the committed direction never turns into its exact opposite.  In
    the control bridge, an [update] leaves [last_move_direction] as it was or
    replaces it by the direction classified at that tick, which is not None
    and not the opposite of the one before, so over any sequence of updates
    no two successive values are opposite.  In the game engine, over any
    sequence of [update] and [toggle_pause] calls after a [reset] that
    returned, the direction after a call is never the opposite of the
    direction before it.  Neither layer relies on the other. *)
Theorem committed_direction_never_reverses :
  (∀ b i,
     let b' := Bridge.update b i.1 i.2 in
     last_move_direction b' = last_move_direction b ∨
     ∃ d, classified b i = Some d ∧ last_move_direction b' = Some d ∧
          ∀ p, last_move_direction b = Some p → d ≠ opposite p)
  ∧
  (∀ b inputs,
     chain bridge_commit (last_move_direction b)
       (map last_move_direction (Ticks.run b inputs)))
  ∧
  (∀ fuel0 fuel w calls,
     (Engine.reset fuel0 w).1 = Ok tt →
     let w0 := (Engine.reset fuel0 w).2 in
     direction (game w0) = RIGHT ∧
     chain engine_commit (direction (game w0))
       (map (λ w', direction (game w')) (run_calls fuel calls w0))).
Proof.
  split; [|split].
  - intros b i. cbv zeta.
    destruct (bridge_update_commit b i) as [Hsame|(d & Hcls & Hnew & _ & Hopp)].
    + by left.
    + right. by exists d.
  - intros b inputs. apply bridge_run_chain.
  - intros fuel0 fuel w calls _. cbv zeta.
    destruct (reset_directions fuel0 w) as [Hdir Hnext].
    split; [done|].
    apply run_calls_chain. unfold staged_ok. rewrite Hdir, Hnext. done.
Qed.

End Committed.

(** A restart on a 20x20 grid, then the player asks for LEFT (refused), UP
    and DOWN (refused once UP is committed) with boost on. *)
Lemma committed_direction_never_reverses_witness :
  let w0 := (Engine.reset 5 unset).2 in
  let calls := replicate 5 (Update (Some LEFT) true) ++
               replicate 5 (Update (Some UP) true) ++
               replicate 5 (Update (Some DOWN) true) in
  map (λ w', direction (game w')) (run_calls 5 calls w0) =
    replicate 4 RIGHT ++ [RIGHT] ++ replicate 4 RIGHT ++ [UP] ++ replicate 5 UP ∧
  chain engine_commit RIGHT (map (λ w', direction (game w')) (run_calls 5 calls w0)).
Proof.
  split; [vm_compute; reflexivity|].
  apply (proj2 (proj2 (committed_direction_never_reverses (H := Float64.numpy)))
           5%nat 5%nat unset).
  vm_compute. reflexivity.
Defined.

(** The curled snake turns right onto its tail, in [_move_snake] and at the
    tenth tick of [update] at base speed: the snake, the food and the score
    stay, the direction goes from UP to RIGHT and the count from 9 to 0. *)
Lemma collision_keeps_snake_food_score_witness :
  (let out := Engine._move_snake 5 curled in
   out.1 = Ok tt ∧
   game_over (game out.2) = true ∧
   snake (game out.2) = [(5, 5); (5, 6); (6, 6); (6, 5)] ∧
   food (game out.2) = (0, 0) ∧
   score (game out.2) = 0 ∧
   direction (game out.2) = RIGHT)
  ∧
  (let w := {| game := Engine.set_speed_counter 9 (game curled); rng := counting |} in
   let out := Engine.update 5 (Some RIGHT) false w in
   out.1 = Ok tt ∧ game_over (game out.2) = true ∧
   snake (game out.2) = snake (game w) ∧ food (game out.2) = food (game w) ∧
   score (game out.2) = score (game w) ∧
   direction (game w) = UP ∧ direction (game out.2) = RIGHT ∧
   speed_counter (game w) = 9 ∧ speed_counter (game out.2) = 0).
Proof.
  split.
  - destruct (proj1 (collision_keeps_snake_food_score 5 curled (6, 5)))
      as (Hret & Hover & Hsnake & Hfood & Hscore & Hdir & _).
    + reflexivity.
    + right. compute_done.
    + cbv zeta. by rewrite Hret, Hover, Hsnake, Hfood, Hscore, Hdir.
  - destruct (proj2 (collision_keeps_snake_food_score 5
                {| game := Engine.set_speed_counter 9 (game curled); rng := counting |} (6, 5))
                (Some RIGHT) false)
      as (Hret & Hover & Hsnake & Hfood & Hscore & Hdir & _ & Hcount & _).
    + reflexivity.
    + reflexivity.
    + unfold step_due. vm_compute. discriminate.
    + reflexivity.
    + right. compute_done.
    + cbv zeta. rewrite Hret, Hover, Hsnake, Hfood, Hscore, Hdir, Hcount.
      by vm_compute.
Defined.

(** ** The game engine: growth *)

(** C3: a movement step whose new head is a free cell of the grid.  If that
    cell is the food cell, the new head is prepended and the tail stays: the
    length goes up by exactly 1 and the score by exactly 10, and the step
    returns once a draw of [_spawn_food] falls off the grown snake.  If it is
    not the food cell, the step returns with the new head prepended and the
    tail removed: the length, the score and the food are unchanged. *)
Theorem growth_on_food_only fuel w new_head :
  new_head_of (game w) = Some new_head →
  in_grid (game w) new_head →
  new_head ∉ snake (game w) →
  let out := Engine._move_snake fuel w in
  (new_head = food (game w) →
     snake (game out.2) = new_head :: snake (game w) ∧
     length (snake (game out.2)) = S (length (snake (game w))) ∧
     score (game out.2) = score (game w) + 10 ∧
     (out.1 = Ok tt ∨ out.1 = OutOfFuel) ∧
     ((∃ k, (k < fuel)%nat ∧ candidate (game w) (rng w) k ∉ new_head :: snake (game w)) →
        out.1 = Ok tt ∧ in_grid (game w) (food (game out.2)) ∧
        food (game out.2) ∉ snake (game out.2)))
  ∧
  (new_head ≠ food (game w) →
     out.1 = Ok tt ∧
     snake (game out.2) = new_head :: removelast (snake (game w)) ∧
     length (snake (game out.2)) = length (snake (game w)) ∧
     score (game out.2) = score (game w) ∧
     food (game out.2) = food (game w)).
Proof.
  intros Hnh Hin Hfree. cbv zeta.
  rewrite move_snake_unfold, Hnh. cbv zeta.
  rewrite !bool_decide_eq_true_2 by done.
  rewrite (bool_decide_eq_false_2 (new_head ∈ snake (game w))) by done.
  assert (Hpos : 0 < grid_width (game w) ∧ 0 < grid_height (game w)).
  { destruct Hin. lia. }
  destruct Hpos as [Hw Hh].
  split.
  - intros Heat. rewrite bool_decide_eq_true_2 by done.
    set (grown := Engine.set_score _ _).
    set (w1 := {| game := grown; rng := rng w |}).
    pose proof (spawn_food_game fuel w1) as Hgame.
    pose proof (spawn_food_no_raise fuel w1) as Hraise.
    pose proof (spawn_food_ok fuel w1) as Hok.
    assert (Hret : (∃ k, (k < fuel)%nat ∧
                         candidate (game w) (rng w) k ∉ new_head :: snake (game w)) →
                   ∃ c, (Engine._spawn_food fuel w1).1 = Ok c).
    { intros (k & Hk & Hc). by apply (spawn_food_returns fuel w1 k). }
    destruct (Engine._spawn_food fuel w1) as [[f|e|] w2]; cbn [fst snd] in *;
      rewrite Hgame; subst grown; fields.
    + split_and!; try done; [by left|].
      intros _. destruct (Hok f Hw Hh eq_refl) as [Hgrid Hoff]. by split_and!.
    + by destruct (Hraise e Hw Hh).
    + split_and!; try done; [by right|].
      intros Hdraw. by destruct (Hret Hdraw).
  - intros Hmiss. rewrite bool_decide_eq_false_2 by done. fields.
    destruct (snake (game w)) as [|c rest] eqn:Hsnake.
    { unfold new_head_of in Hnh. by rewrite Hsnake in Hnh. }
    change (removelast (new_head :: c :: rest)) with (new_head :: removelast (c :: rest)).
    repeat split; try done.
    pose proof (app_removelast_last c (l := c :: rest) ltac:(done)) as Hsplit.
    apply (f_equal length) in Hsplit. rewrite length_app in Hsplit.
    cbn [length] in *. lia.
Qed.

(** The snake eats the food in front of it: 4 cells and 10 points, and the
    first draw (0, 1) is the new food. *)
Lemma growth_on_food_only_witness :
  let out := Engine._move_snake 5 about_to_eat in
  out.1 = Ok tt ∧
  snake (game out.2) = [(11, 10); (10, 10); (9, 10); (8, 10)] ∧
  score (game out.2) = 10 ∧
  food (game out.2) ∉ snake (game out.2).
Proof.
  destruct (growth_on_food_only 5 about_to_eat (11, 10)) as [Heat _].
  - reflexivity.
  - unfold in_grid. vm_compute. repeat split; discriminate.
  - compute_done.
  - destruct (Heat eq_refl) as (Hsnake & _ & Hscore & _ & Hret).
    destruct Hret as (Hok & _ & Hfood).
    { exists 0%nat. split; [lia|]. compute_done. }
    cbv zeta. by rewrite Hok, Hsnake, Hscore.
Defined.

(** A step onto a cell without food keeps 3 cells and drops the tail. *)
Lemma plain_step_example :
  let w := {| game := playing [(10, 10); (9, 10); (8, 10)] RIGHT UP (0, 0);
              rng := counting |} in
  (Engine._move_snake 5 w).1 = Ok tt ∧
  snake (game (Engine._move_snake 5 w).2) = [(10, 9); (10, 10); (9, 10)].
Proof. vm_compute. done. Qed.

(** ** The game engine: construction *)

(** [__init__] returns what the first [_spawn_food] lets it return. *)
Lemma init_spawn fuel grid_width grid_height cell_size r :
  (Engine.init fuel grid_width grid_height cell_size r).1 =
    match (Engine._spawn_food fuel
             {| game := seeded grid_width grid_height cell_size; rng := r |}).1 with
    | Ok f =>
        Ok (Engine.set_speed_counter 0
              (Engine.set_speeds 10 5
                 (Engine.set_food f (seeded grid_width grid_height cell_size))))
    | Raise e => Raise e
    | OutOfFuel => OutOfFuel
    end.
Proof.
  unfold Engine.init, Engine.reset, bind, get_self, modify. fields.
  change (Engine.set_paused false _) with (seeded grid_width grid_height cell_size).
  pose proof (spawn_food_game fuel
    {| game := seeded grid_width grid_height cell_size; rng := r |}) as Hgame.
  destruct (Engine._spawn_food fuel _) as [[f|e|] w2]; fields; [|done..].
  by rewrite Hgame.
Qed.

(** C9 as the specification states it does not hold: a 2x1 grid (capacity
    2) is not rejected, a thousand turns of the food loop go by without a
    result; and a 3x1 grid (capacity 3) is accepted, the cell (2, 0) being
    free because the snake's third cell (-1, 0) lies outside the grid. *)
Lemma small_grid_is_not_rejected :
  (2 * 1 <= 3 ∧ (Engine.init 1000 2 1 20 counting).1 = OutOfFuel) ∧
  (3 * 1 <= 3 ∧ ∃ self, (Engine.init 1000 3 1 20 counting).1 = Ok self ∧
                         snake self = [(1, 0); (0, 0); (-1, 0)] ∧ food self = (2, 0)).
Proof.
  split; split; [lia | vm_compute; reflexivity | lia |].
  eexists. vm_compute. done.
Qed.

(** C9 (amended): the constructor does not check the grid capacity.  With
    positive dimensions it never raises; when every cell of the grid lies on
    the three cells of the initial snake, the food loop does not return,
    whatever the draws and however long it runs; and as soon as a draw falls
    on a cell off the initial snake the constructor returns the game. *)
Theorem construction_is_not_validated fuel grid_width grid_height cell_size r :
  0 < grid_width → 0 < grid_height →
  let made := (Engine.init fuel grid_width grid_height cell_size r).1 in
  (∀ e, made ≠ Raise e) ∧
  ((∀ c : Position, 0 <= c.1 < grid_width ∧ 0 <= c.2 < grid_height →
                    c ∈ initial_snake grid_width grid_height) →
   made = OutOfFuel) ∧
  (∀ k, (k < fuel)%nat →
        draw grid_width grid_height r k ∉ initial_snake grid_width grid_height →
        ∃ self, made = Ok self ∧
                snake self = initial_snake grid_width grid_height ∧
                food self ∉ snake self).
Proof.
  intros Hw Hh. cbv zeta. rewrite init_spawn.
  set (w1 := {| game := seeded grid_width grid_height cell_size; rng := r |}).
  split_and!.
  - intros e.
    pose proof (spawn_food_no_raise fuel w1 e Hw Hh) as Hraise.
    destruct (Engine._spawn_food fuel w1).1 as [f|e'|]; [done| |done].
    intros [= ->]. by apply Hraise.
  - intros Hfull.
    by rewrite (spawn_food_hangs fuel w1 Hw Hh Hfull).
  - intros k Hk Hfree.
    destruct (spawn_food_returns fuel w1 k Hw Hh Hk Hfree) as [f Hf].
    destruct (spawn_food_ok fuel w1 f Hw Hh Hf) as [_ Hoff].
    rewrite Hf. eexists. by split_and!.
Qed.

(** A 2x1 grid: both cells are under the snake and [__init__] does not
    return; a 3x1 grid: the second draw is the free cell (2, 0). *)
Lemma construction_is_not_validated_witness :
  (Engine.init 50 2 1 20 counting).1 = OutOfFuel ∧
  ∃ self, (Engine.init 50 3 1 20 counting).1 = Ok self ∧ food self ∉ snake self.
Proof.
  split.
  - apply (construction_is_not_validated 50 2 1 20 counting); [lia|lia|].
    intros [x y] [Hx Hy]. cbn [fst snd] in *.
    assert (y = 0) as -> by lia.
    assert (x = 0 ∨ x = 1) as [-> | ->] by lia; compute_done.
  - destruct (construction_is_not_validated 50 3 1 20 counting) as (_ & _ & Hret);
      [lia|lia|].
    destruct (Hret 1%nat) as (self & Hmade & _ & Hfood); [lia|compute_done|].
    by exists self.
Defined.

(** Without a cell in some dimension [random.randint] has an empty range. *)
Lemma empty_grid_raises fuel grid_height cell_size r :
  (Engine.init (S fuel) 0 grid_height cell_size r).1 = Raise ValueError.
Proof. reflexivity. Qed.

(** * Further properties *)

(** ** The position history *)

Lemma deque_append_length maxlen (h : list Position) p :
  (length (Gesture.deque_append maxlen h p) <= maxlen)%nat.
Proof.
  unfold Gesture.deque_append. rewrite length_drop, length_app. cbn [length]. lia.
Qed.

Lemma feed_size g samples : history_size (feed g samples) = history_size g.
Proof.
  revert g. induction samples as [|s rest IH]; intros g; [done|].
  cbn [feed foldl]. fold (feed (Gesture.update g (Some s.1) s.2) rest).
  by rewrite IH.
Qed.

(** After any number of samples the deque holds the newest ones. *)
Lemma feed_history samples : ∀ g,
  (length (position_history g) <= history_size g)%nat →
  position_history (feed g samples) =
    drop (length (position_history g ++ samples.*1) - history_size g)
         (position_history g ++ samples.*1).
Proof.
  induction samples as [|s rest IH]; intros g Hlen.
  - cbn [feed foldl fmap list_fmap]. rewrite app_nil_r.
    replace (length (position_history g) - history_size g)%nat with 0%nat by lia.
    done.
  - cbn [feed foldl]. fold (feed (Gesture.update g (Some s.1) s.2) rest).
    set (g1 := Gesture.update g (Some s.1) s.2).
    assert (Hh1 : position_history g1 =
                  Gesture.deque_append (history_size g) (position_history g) s.1) by done.
    assert (Hs1 : history_size g1 = history_size g) by done.
    rewrite IH; cycle 1.
    { rewrite Hh1, Hs1. apply deque_append_length. }
    rewrite Hh1, Hs1. unfold Gesture.deque_append.
    set (h := position_history g) in *. set (n := history_size g) in *.
    cbn [fmap list_fmap]. fold (fmap (M := list) (@fst Position (option Keypoints)) rest).
    set (ps := rest.*1).
    replace (h ++ s.1 :: ps) with ((h ++ [s.1]) ++ ps) by (by rewrite <- app_assoc).
    set (l := h ++ [s.1]).
    assert (Hl : length l = S (length h)) by (subst l; rewrite length_app; cbn; lia).
    rewrite <- (drop_app_le l ps) by lia.
    rewrite drop_drop. f_equal.
    rewrite !length_app, length_drop, length_app. lia.
Qed.

(** X1: the position history is a sliding window: after any number of
    [update] calls with a position it holds the newest [history_size]
    samples, oldest first, and never more than [history_size] of them. *)
Theorem history_is_sliding_window g samples :
  (length (position_history g) <= history_size g)%nat →
  let g' := feed g samples in
  position_history g' =
    drop (length (position_history g ++ samples.*1) - history_size g)
         (position_history g ++ samples.*1) ∧
  (length (position_history g') <= history_size g')%nat ∧
  length (position_history g') =
    Nat.min (length (position_history g) + length samples) (history_size g).
Proof.
  intros Hlen. cbv zeta. rewrite feed_size, feed_history by done.
  split_and!; [done| |];
    rewrite length_drop, length_app, length_fmap; lia.
Qed.

(** Twelve samples into the default window of ten. *)
Lemma history_is_sliding_window_witness :
  position_history (feed Gesture.default (map (λ n, ((Z.of_nat n, 0), None)) (seq 0 12))) =
    map (λ n, (Z.of_nat n, 0)) (seq 2 10).
Proof.
  destruct (history_is_sliding_window Gesture.default
              (map (λ n, ((Z.of_nat n, 0), None)) (seq 0 12))) as (-> & _).
  - cbn. lia.
  - vm_compute. reflexivity.
Defined.

Lemma get_direction_short g kp :
  (length (position_history g) < 3)%nat → (Gesture.get_direction g kp).1 = None.
Proof.
  intros Hlen. unfold Gesture.get_direction.
  destruct (Nat.ltb_spec (length (position_history g)) 3); [done|lia].
Qed.

(** X2: no direction is classified before three samples are in the window:
    not within the first two updates after [reset], not at the first update
    after [calibrate] (which leaves its position as the only sample), and
    never at all on a recognizer whose [history_size] is below 3. *)
Theorem no_direction_before_three_samples :
  (∀ g samples kp,
     (length samples < 3)%nat →
     (Gesture.get_direction (feed (Gesture.reset g) samples) kp).1 = None) ∧
  (∀ g p samples kp,
     (length samples < 2)%nat →
     (Gesture.get_direction (feed (Gesture.calibrate g (Some p)) samples) kp).1 = None) ∧
  (∀ g samples kp,
     (length (position_history g) <= history_size g)%nat →
     (history_size g < 3)%nat →
     (Gesture.get_direction (feed g samples) kp).1 = None).
Proof.
  split_and!.
  - intros g samples kp Hlen. apply get_direction_short.
    rewrite feed_history by (cbn; lia).
    rewrite length_drop, length_app, length_fmap. cbn. lia.
  - intros g p samples kp Hlen. apply get_direction_short.
    pose proof (deque_append_length (history_size g) [] p) as Hone.
    assert (Hle : (length (Gesture.deque_append (history_size g) [] p) <= 1)%nat).
    { unfold Gesture.deque_append. rewrite length_drop. cbn. lia. }
    rewrite feed_history by done.
    rewrite length_drop, length_app, length_fmap.
    cbn [Gesture.calibrate position_history history_size] in *. lia.
  - intros g samples kp Hlen Hsize. apply get_direction_short.
    rewrite feed_history by done.
    rewrite length_drop, length_app, length_fmap. lia.
Qed.

(** Two large moves right after a reset, one right after a calibration. *)
Lemma no_direction_before_three_samples_witness :
  (Gesture.get_direction
     (feed (Gesture.reset Gesture.default) [((0, 0), None); ((500, 0), None)]) None).1 = None ∧
  (Gesture.get_direction
     (feed (Gesture.calibrate Gesture.default (Some (0, 0))) [((500, 0), None)]) None).1 = None ∧
  (Gesture.get_direction
     (feed (Gesture.init 30 2) [((0, 0), None); ((50, 0), None); ((500, 0), None)]) None).1 = None.
Proof.
  destruct no_direction_before_three_samples as (Hreset & Hcal & Hsmall).
  split_and!.
  - apply Hreset. cbn. lia.
  - apply Hcal. cbn. lia.
  - apply Hsmall; cbn; lia.
Defined.

(** ** The cooldown counters *)

Lemma gesture_update_cooldowns g pos kp :
  pause_cooldown (Gesture.update g pos kp) =
    match pos with
    | Some _ => if 0 <? pause_cooldown g then pause_cooldown g - 1 else pause_cooldown g
    | None => pause_cooldown g
    end ∧
  boost_cooldown (Gesture.update g pos kp) =
    match pos with
    | Some _ => if 0 <? boost_cooldown g then boost_cooldown g - 1 else boost_cooldown g
    | None => boost_cooldown g
    end.
Proof. by destruct pos. Qed.

Lemma gesture_update_in_range g pos kp :
  cooldowns_in_range g → cooldowns_in_range (Gesture.update g pos kp).
Proof.
  unfold cooldowns_in_range.
  destruct (gesture_update_cooldowns g pos kp) as [-> ->].
  destruct pos; repeat case_match; lia.
Qed.

Section Debounce.
Context `{Numpy}.

Lemma bridge_perform_in_range b c :
  cooldowns_in_range (gesture_recognizer b) →
  cooldowns_in_range (gesture_recognizer (bridge_perform b c)).
Proof.
  intros Hin. destruct c as [[pos kp]| |p|]; cbn [bridge_perform fst snd].
  - pose proof (gesture_update_in_range (gesture_recognizer b) pos kp Hin) as Hin'.
    destruct (update_view b pos kp) as (_ & Hb & _ & Hp).
    unfold cooldowns_in_range in *. rewrite Hb, Hp.
    repeat case_match; lia.
  - unfold Bridge.get_pause_trigger. by case_match.
  - by destruct p.
  - done.
Qed.

(** X3: the cooldown counters stay in range: if the pause cooldown is within
    0..30 and the boost cooldown within 0..10, they still are after any
    sequence of [update], [get_pause_trigger], [calibrate] and [reset] calls
    on the bridge. *)
Theorem cooldowns_stay_in_range b cs :
  cooldowns_in_range (gesture_recognizer b) →
  cooldowns_in_range (gesture_recognizer (bridge_run b cs)).
Proof.
  revert b. induction cs as [|c rest IH]; intros b Hin; [done|].
  cbn [bridge_run foldl]. apply IH. by apply bridge_perform_in_range.
Qed.

(** The pause flag and cooldown after an [update], given the cooldown before. *)
Lemma update_pause_view b pos kp :
  let c := pause_cooldown (gesture_recognizer b) in
  let b' := Bridge.update b pos kp in
  (pause_triggered b' = true →
     pause_triggered b = true ∨
     (c <= 1 ∧ pause_cooldown (gesture_recognizer b') = 30)) ∧
  (pause_triggered b' = false →
     c - 1 <= pause_cooldown (gesture_recognizer b') ∨ c <= 0).
Proof.
  cbv zeta.
  destruct (update_view b pos kp) as (_ & _ & -> & ->).
  destruct (gesture_update_cooldowns (gesture_recognizer b) pos kp) as [-> _].
  split; intros Hflag.
  - destruct (Gesture.is_closed_fist kp); [|done]. cbn [andb].
    destruct (_ =? 0) eqn:Hzero; [|by left].
    right. split; [|done]. apply Z.eqb_eq in Hzero.
    destruct pos; repeat case_match; lia.
  - destruct (Gesture.is_closed_fist kp); cbn [andb] in *.
    + destruct (_ =? 0) eqn:Hzero; [done|].
      left. destruct pos; repeat case_match; lia.
    + left. destruct pos; repeat case_match; lia.
Qed.

Lemma pause_readings_quiet inputs : ∀ b,
  pause_triggered b = false →
  (∀ j, (Z.of_nat j + 1 < pause_cooldown (gesture_recognizer b)) →
        Ticks.pause_readings b inputs !! j ≠ Some true) ∧
  spaced 30 (Ticks.pause_readings b inputs).
Proof.
  induction inputs as [|[pos kp] rest IH]; intros b Hflag.
  { split; [by intros j _|]. by intros i j Hi. }
  cbn [Ticks.pause_readings fst snd].
  destruct (update_pause_view b pos kp) as [Htrue Hfalse]. cbv zeta in *.
  set (b1 := Bridge.update b pos kp) in *.
  unfold Bridge.get_pause_trigger.
  destruct (pause_triggered b1) eqn:Hb1.
  - destruct (Htrue eq_refl) as [?|[Hc Harm]]; [congruence|].
    destruct (IH (Bridge.set_pause false b1) eq_refl) as [Hquiet Hspaced].
    cbn [Bridge.set_pause gesture_recognizer] in Hquiet. rewrite Harm in Hquiet.
    split.
    + intros [|j] Hj; [lia|]. cbn. apply Hquiet. lia.
    + intros [|i] [|j] Hi Hj Hlt; try lia; cbn in Hi, Hj.
      * destruct (decide (29 <= j)%nat) as [?|Hnear]; [lia|].
        exfalso. apply (Hquiet j); [lia|done].
      * pose proof (Hspaced i j Hi Hj). lia.
  - destruct (IH b1 Hb1) as [Hquiet Hspaced].
    split.
    + intros [|j] Hj; [done|]. cbn. apply Hquiet.
      destruct (Hfalse eq_refl); lia.
    + intros [|i] [|j] Hi Hj Hlt; try lia; cbn in Hi, Hj; [done|].
      pose proof (Hspaced i j Hi Hj). lia.
Qed.

(** X4: the pause gesture is debounced: whatever the samples (fist closed or
    not, position present or not), with one [update] and one
    [get_pause_trigger] per tick and no trigger pending at the start, two
    true readings are never less than 30 ticks apart. *)
Theorem pause_readings_are_spaced b inputs :
  pause_triggered b = false →
  spaced 30 (Ticks.pause_readings b inputs).
Proof. intros Hflag. by apply pause_readings_quiet. Qed.

(** The boost flag and cooldown after an [update]. *)
Lemma update_boost_view b pos kp :
  let c := boost_cooldown (gesture_recognizer b) in
  let b' := Bridge.update b pos kp in
  (boost_active b' = true → c <= 1 ∧ boost_cooldown (gesture_recognizer b') = 10) ∧
  (boost_active b' = false → c - 1 <= boost_cooldown (gesture_recognizer b') ∨ c <= 0).
Proof.
  cbv zeta.
  destruct (update_view b pos kp) as (-> & -> & _).
  destruct (gesture_update_cooldowns (gesture_recognizer b) pos kp) as [_ ->].
  split; intros Hflag.
  - rewrite Hflag. split; [|done].
    apply andb_true_iff in Hflag as [_ Hzero%Z.eqb_eq].
    destruct pos; repeat case_match; lia.
  - rewrite Hflag. left. destruct pos; repeat case_match; lia.
Qed.

Lemma boost_readings_quiet inputs : ∀ b,
  (∀ j, (Z.of_nat j + 1 < boost_cooldown (gesture_recognizer b)) →
        Ticks.boost_readings b inputs !! j ≠ Some true) ∧
  spaced 10 (Ticks.boost_readings b inputs).
Proof.
  induction inputs as [|[pos kp] rest IH]; intros b.
  { split; [by intros j _|]. by intros i j Hi. }
  cbn [Ticks.boost_readings fst snd].
  destruct (update_boost_view b pos kp) as [Htrue Hfalse]. cbv zeta in *.
  set (b1 := Bridge.update b pos kp) in *.
  destruct (IH b1) as [Hquiet Hspaced].
  unfold Bridge.get_boost.
  destruct (boost_active b1) eqn:Hb1.
  - destruct (Htrue eq_refl) as [Hc Harm]. rewrite Harm in Hquiet.
    split.
    + intros [|j] Hj; [lia|]. cbn. apply Hquiet. lia.
    + intros [|i] [|j] Hi Hj Hlt; try lia; cbn in Hi, Hj.
      * destruct (decide (9 <= j)%nat) as [?|Hnear]; [lia|].
        exfalso. apply (Hquiet j); [lia|done].
      * pose proof (Hspaced i j Hi Hj). lia.
  - split.
    + intros [|j] Hj; [done|]. cbn. apply Hquiet.
      destruct (Hfalse eq_refl); lia.
    + intros [|i] [|j] Hi Hj Hlt; try lia; cbn in Hi, Hj; [done|].
      pose proof (Hspaced i j Hi Hj). lia.
Qed.

(** X5: boost is rate limited: whatever the samples and whatever state the
    bridge starts in, with one [update] per tick two ticks with boost active
    are never less than 10 ticks apart. *)
Theorem boost_readings_are_spaced b inputs :
  spaced 10 (Ticks.boost_readings b inputs).
Proof. apply boost_readings_quiet. Qed.

(** X6: the pause trigger is one-shot and is not queued: a second
    [get_pause_trigger] without an [update] in between reads false, and an
    [update] whose keypoints are not a closed fist drops a trigger that was
    set and not yet read. *)
Theorem pause_trigger_is_one_shot :
  (∀ b, (Bridge.get_pause_trigger (Bridge.get_pause_trigger b).2).1 = false) ∧
  (∀ b pos kp,
     Gesture.is_closed_fist kp = false →
     pause_triggered (Bridge.update b pos kp) = false ∧
     (Bridge.get_pause_trigger (Bridge.update b pos kp)).1 = false).
Proof.
  split.
  - intros b. unfold Bridge.get_pause_trigger.
    destruct (pause_triggered b) eqn:Hb; cbn; [done|by rewrite Hb].
  - intros b pos kp Hopen.
    destruct (update_view b pos kp) as (_ & _ & Hflag & _).
    rewrite Hopen in Hflag. unfold Bridge.get_pause_trigger. by rewrite Hflag.
Qed.

End Debounce.

(** A fist closed at ticks 1 and 2 and again from tick 20 on. *)
Lemma pause_readings_are_spaced_witness :
  let inputs := replicate 2 (Some (320, 240), Some fist_keypoints) ++
                replicate 17 (Some (320, 240), Some palm_keypoints) ++
                replicate 21 (Some (320, 240), Some fist_keypoints) in
  Ticks.pause_readings Bridge.init inputs !! 0%nat = Some true ∧
  Ticks.pause_readings Bridge.init inputs !! 30%nat = Some true ∧
  spaced 30 (Ticks.pause_readings Bridge.init inputs).
Proof.
  split_and!; [vm_compute; reflexivity..|].
  apply (pause_readings_are_spaced (H := Float64.numpy)). reflexivity.
Defined.

(** A pending trigger is lost when the hand opens before it is read. *)
Lemma pause_trigger_is_one_shot_witness :
  let b := Bridge.update Bridge.init (Some (320, 240)) (Some fist_keypoints) in
  pause_triggered b = true ∧
  (Bridge.get_pause_trigger
     (Bridge.update b (Some (320, 240)) (Some palm_keypoints))).1 = false.
Proof.
  split; [vm_compute; reflexivity|].
  apply (proj2 (pause_trigger_is_one_shot (H := Float64.numpy))).
  vm_compute. reflexivity.
Defined.

(** The default bridge, its two cooldowns armed, through a mix of calls. *)
Lemma cooldowns_stay_in_range_witness :
  cooldowns_in_range
    (gesture_recognizer
       (bridge_run Bridge.init
          [Tick (Some (1, 1), Some fist_keypoints); ReadPause;
           Tick (Some (2, 2), Some palm_keypoints); ResetBridge;
           Calibrate (Some (3, 3)); Tick (None, Some fist_keypoints)])).
Proof.
  apply (cooldowns_stay_in_range (H := Float64.numpy)).
  unfold cooldowns_in_range. cbn. lia.
Defined.

(** An open palm held for 25 ticks: boost at ticks 1, 11 and 21. *)
Lemma boost_readings_are_spaced_witness :
  let inputs := replicate 25 (Some (320, 240), Some palm_keypoints) in
  Ticks.boost_readings Bridge.init inputs !! 0%nat = Some true ∧
  Ticks.boost_readings Bridge.init inputs !! 10%nat = Some true ∧
  spaced 10 (Ticks.boost_readings Bridge.init inputs).
Proof.
  split_and!; [vm_compute; reflexivity..|].
  apply (boost_readings_are_spaced (H := Float64.numpy)).
Defined.

(** ** The direction the bridge hands out *)

Section Handed.
Context `{Numpy}.

Lemma bridge_update_directions b pos kp :
  let b' := Bridge.update b pos kp in
  (current_direction b' = current_direction b ∧
   last_move_direction b' = last_move_direction b) ∨
  ∃ d, current_direction b' = Some d ∧ last_move_direction b' = Some d.
Proof.
  cbv zeta. unfold Bridge.update.
  destruct (Gesture.get_direction _ _) as [dir g2].
  destruct (update_boost_pause_frame
              (Bridge._update_direction (Bridge.set_recognizer g2 b) dir)
              (Gesture.is_open_palm kp) (Gesture.is_closed_fist kp)) as [-> ->].
  unfold Bridge._update_direction.
  destruct dir as [d|]; [|left; split; reflexivity].
  destruct b as [g cur boost pause [last|]];
    cbn [Bridge.set_recognizer last_move_direction current_direction].
  - case_bool_decide; [right; exists d | left]; split; reflexivity.
  - right. exists d. split; reflexivity.
Qed.

Lemma bridge_perform_directions b c :
  current_direction b = last_move_direction b →
  current_direction (bridge_perform b c) = last_move_direction (bridge_perform b c).
Proof.
  intros Heq. destruct c as [[pos kp]| |p|]; cbn [bridge_perform fst snd].
  - destruct (bridge_update_directions b pos kp) as [[-> ->]|(d & -> & ->)]; done.
  - unfold Bridge.get_pause_trigger. by case_match.
  - done.
  - done.
Qed.

Lemma bridge_perform_keeps_direction b c :
  c ≠ ResetBridge →
  is_Some (current_direction b) →
  is_Some (current_direction (bridge_perform b c)).
Proof.
  intros Hc Hsome. destruct c as [[pos kp]| |p|]; cbn [bridge_perform fst snd]; [| | |done].
  - destruct (bridge_update_directions b pos kp) as [[-> _]|(d & -> & _)]; [done|by eexists].
  - unfold Bridge.get_pause_trigger. by case_match.
  - done.
Qed.

(** X7: the direction the bridge hands out is the committed one: if
    [current_direction] and [last_move_direction] agree (as they do after
    [__init__] and [reset]) they agree after any sequence of bridge calls;
    and once a direction has been handed out, only [reset] takes it away
    again. *)
Theorem current_direction_is_last_committed b cs :
  current_direction b = last_move_direction b →
  current_direction (bridge_run b cs) = last_move_direction (bridge_run b cs) ∧
  (ResetBridge ∉ cs → is_Some (current_direction b) →
   is_Some (current_direction (bridge_run b cs))).
Proof.
  revert b. induction cs as [|c rest IH]; intros b Heq.
  { by split. }
  cbn [bridge_run foldl]. fold (bridge_run (bridge_perform b c) rest).
  destruct (IH (bridge_perform b c) (bridge_perform_directions b c Heq)) as [IH1 IH2].
  split; [done|].
  intros Hnoreset Hsome. apply not_elem_of_cons in Hnoreset as [Hc Hrest].
  apply IH2; [done|]. by apply bridge_perform_keeps_direction.
Qed.

End Handed.

(** The head moves right, stops, then a fist is shown and read. *)
Lemma current_direction_is_last_committed_witness :
  let cs := [Tick (Some (0, 0), None); Tick (Some (20, 0), None);
             Tick (Some (40, 0), None); Tick (Some (40, 0), None);
             Tick (None, Some fist_keypoints); ReadPause; Calibrate None] in
  current_direction (bridge_run Bridge.init cs) = Some RIGHT ∧
  last_move_direction (bridge_run Bridge.init cs) = Some RIGHT.
Proof.
  destruct (current_direction_is_last_committed (H := Float64.numpy) Bridge.init
              [Tick (Some (0, 0), None); Tick (Some (20, 0), None);
               Tick (Some (40, 0), None); Tick (Some (40, 0), None);
               Tick (None, Some fist_keypoints); ReadPause; Calibrate None])
    as [Heq _]; [reflexivity|].
  cbv zeta. rewrite <- Heq. split; vm_compute; reflexivity.
Defined.

(** ** The game engine: what a call can do *)

Lemma adjacent_new_head head_x head_y d :
  adjacent (head_x + (Engine.direction_map d).1, head_y + (Engine.direction_map d).2)
           (head_x, head_y).
Proof. unfold adjacent. destruct d; cbn; lia. Qed.

Lemma new_head_adjacent self new_head :
  new_head_of self = Some new_head →
  ∃ head rest, snake self = head :: rest ∧ adjacent new_head head.
Proof.
  unfold new_head_of.
  destruct (snake self) as [|[head_x head_y] rest]; [done|].
  pose proof (adjacent_new_head head_x head_y (next_direction self)) as Hadj.
  destruct (Engine.direction_map (next_direction self)) as [dx dy].
  intros [= <-]. by exists (head_x, head_y), rest.
Qed.

Lemma move_snake_grid fuel w :
  grid_width (game (Engine._move_snake fuel w).2) = grid_width (game w) ∧
  grid_height (game (Engine._move_snake fuel w).2) = grid_height (game w).
Proof.
  rewrite move_snake_unfold. cbv zeta.
  destruct (new_head_of (game w)) as [new_head|]; [|done].
  repeat case_bool_decide; try done.
  match goal with |- context [Engine._spawn_food fuel ?w1] =>
    pose proof (spawn_food_game fuel w1) as Hgame;
    destruct (Engine._spawn_food fuel w1) as [[f|e|] w2] end;
    fields; by rewrite Hgame.
Qed.

(** The movement step has one of the five effects. *)
Lemma move_snake_effect fuel w :
  effect (game w) (game (Engine._move_snake fuel w).2) (Engine._move_snake fuel w).1.
Proof.
  rewrite move_snake_unfold. cbv zeta.
  destruct (new_head_of (game w)) as [new_head|] eqn:Hnh; cycle 1.
  { apply effect_broken; try done.
    unfold new_head_of in Hnh. destruct (snake (game w)) as [|[??] ?]; [done|].
    by destruct (Engine.direction_map _). }
  destruct (new_head_adjacent _ _ Hnh) as (head & rest & Hsnake & Hadj).
  case_bool_decide as Hin; [|by apply effect_still].
  case_bool_decide as Hmem; [by apply effect_still|].
  assert (Hw : 0 < grid_width (game w)) by (destruct Hin; lia).
  assert (Hh : 0 < grid_height (game w)) by (destruct Hin; lia).
  case_bool_decide as Heat.
  - set (grown := Engine.set_score _ _).
    set (w1 := {| game := grown; rng := rng w |}).
    pose proof (spawn_food_game fuel w1) as Hgame.
    pose proof (spawn_food_no_raise fuel w1) as Hraise.
    pose proof (spawn_food_ok fuel w1) as Hok.
    destruct (Engine._spawn_food fuel w1) as [[f|e|] w2]; cbn [fst snd] in *.
    + destruct (Hok f Hw Hh eq_refl) as [Hgrid Hoff].
      apply (effect_eaten _ _ new_head head rest); fields; by rewrite ?Hgame.
    + by destruct (Hraise e Hw Hh).
    + apply (effect_starved _ _ new_head head rest); fields; by rewrite ?Hgame.
  - apply (effect_moved _ _ new_head head rest); try done.
    fields. by rewrite Hsnake.
Qed.

Lemma perform_grid fuel c w :
  grid_width (game (perform fuel c w).2) = grid_width (game w) ∧
  grid_height (game (perform fuel c w).2) = grid_height (game w).
Proof.
  destruct c as [cmd boost|]; cbn [perform].
  - rewrite update_unfold.
    destruct (game_over (game w) || paused (game w)); [done|].
    cbv zeta. destruct (_ <=? _); [|done].
    match goal with |- context [Engine._move_snake fuel ?w1] =>
      by destruct (move_snake_grid fuel w1) as [-> ->] end.
  - unfold Engine.toggle_pause, bind, get_self, modify, ret.
    by destruct (negb (game_over (game w))).
Qed.

(** [update] and [toggle_pause] have one of the five effects. *)
Lemma perform_effect fuel c w :
  effect (game w) (game (perform fuel c w).2) (perform fuel c w).1.
Proof.
  destruct c as [cmd boost|]; cbn [perform].
  - rewrite update_unfold.
    destruct (game_over (game w) || paused (game w)); [by apply effect_still|].
    cbv zeta. destruct (_ <=? _); [|by apply effect_still].
    set (w1 := {| game := _; rng := rng w |}).
    pose proof (move_snake_effect fuel w1) as Heff.
    destruct Heff as [?? ?|nh hd rs ????? ???|nh hd rs ????? ????|nh hd rs ????? ???|? ???];
      [apply effect_still | apply (effect_moved _ _ nh hd rs)
       | apply (effect_eaten _ _ nh hd rs) | apply (effect_starved _ _ nh hd rs)
       | apply effect_broken]; by fields.
  - unfold Engine.toggle_pause, bind, get_self, modify, ret.
    destruct (negb (game_over (game w))); by apply effect_still.
Qed.

(** [reset] case by case. *)
Lemma reset_unfold fuel w :
  Engine.reset fuel w =
    match Engine._spawn_food fuel {| game := restarted (game w); rng := rng w |} with
    | (Ok f, w2) => (Ok tt, {| game := Engine.set_food f (game w2); rng := rng w2 |})
    | (Raise e, w2) => (Raise e, w2)
    | (OutOfFuel, w2) => (OutOfFuel, w2)
    end.
Proof. reflexivity. Qed.

(** ** The game engine: what every sequence of calls keeps *)

Lemma removelast_take {A} (l : list A) : removelast l = take (pred (length l)) l.
Proof. apply removelast_firstn_len. Qed.

Lemma removelast_subseteq {A} (l : list A) : removelast l ⊆ l.
Proof. rewrite removelast_take. apply subseteq_take. Qed.

Lemma removelast_NoDup {A} (l : list A) : NoDup l → NoDup (removelast l).
Proof.
  rewrite removelast_take. intros Hl.
  eapply sublist_NoDup; [done|apply sublist_take].
Qed.

Lemma removelast_length {A} (l : list A) : l ≠ [] → S (length (removelast l)) = length l.
Proof.
  intros Hl. rewrite removelast_take, length_take.
  destruct l; [done|]. cbn [length]. lia.
Qed.

Lemma chain_removelast {A} (R : A → A → Prop) (l : list A) : ∀ a,
  chain R a l → chain R a (removelast l).
Proof.
  induction l as [|b l IH]; intros a Hc; [done|].
  destruct l as [|c l]; [done|].
  destruct Hc as [Hab Hc].
  change (removelast (b :: c :: l)) with (b :: removelast (c :: l)).
  split; [done|]. by apply IH.
Qed.

Lemma initial_snake_simple_path grid_width grid_height :
  simple_path (initial_snake grid_width grid_height).
Proof.
  unfold initial_snake, simple_path. cbv zeta. split_and!.
  - cbn. lia.
  - repeat (apply NoDup_cons; split);
      rewrite ?elem_of_cons, ?elem_of_nil; try apply NoDup_nil_2;
      intros H; repeat destruct H as [H|H]; try done; injection H; lia.
  - unfold path, chain, adjacent. cbn [fst snd]. lia.
Qed.

Lemma effect_simple_path s s' r :
  effect s s' r → simple_path (snake s) → simple_path (snake s').
Proof.
  intros Heff (Hlen & Hdup & Hpath).
  destruct Heff as [Hs _ _|nh hd rs Hsn Hadj _ Hoff _ Hs _ _
                    |nh hd rs Hsn Hadj _ Hoff _ Hs _ _ _
                    |nh hd rs Hsn Hadj _ Hoff _ Hs _ _|_ Hs _ _];
    rewrite Hs; try done.
  - rewrite Hsn in *. destruct rs as [|c rs]; [cbn in Hlen; lia|].
    change (removelast (hd :: c :: rs)) with (hd :: removelast (c :: rs)).
    split_and!.
    + pose proof (removelast_length (c :: rs) ltac:(done)). cbn [length] in *. lia.
    + apply NoDup_cons. split.
      * intros Hin. apply Hoff.
        by apply (removelast_subseteq (hd :: c :: rs)).
      * by apply (removelast_NoDup (hd :: c :: rs)).
    + split; [done|]. by apply (chain_removelast adjacent (c :: rs)).
  - rewrite Hsn in *. split_and!; [cbn [length] in *; lia|by apply NoDup_cons|by split].
  - rewrite Hsn in *. split_and!; [cbn [length] in *; lia|by apply NoDup_cons|by split].
Qed.

Lemma effect_score s s' r :
  effect s s' r →
  score s = 10 * (Z.of_nat (length (snake s)) - 3) →
  score s' = 10 * (Z.of_nat (length (snake s')) - 3).
Proof.
  intros Heff Hscore.
  destruct Heff as [Hs Hsc _|nh hd rs Hsn _ _ _ _ Hs Hsc _
                    |nh hd rs Hsn _ _ _ _ Hs Hsc _ _
                    |nh hd rs Hsn _ _ _ _ Hs Hsc _|_ Hs Hsc _];
    rewrite Hs, Hsc, Hscore; try done.
  - pose proof (removelast_length (snake s)) as Hlen.
    rewrite Hsn in Hlen. specialize (Hlen ltac:(done)).
    rewrite Hsn. cbn [length] in *. lia.
  - cbn [length]. lia.
  - cbn [length]. lia.
Qed.

Lemma reset_state fuel w :
  let s' := game (Engine.reset fuel w).2 in
  snake s' = initial_snake (grid_width (game w)) (grid_height (game w)) ∧
  score s' = 0 ∧
  grid_width s' = grid_width (game w) ∧ grid_height s' = grid_height (game w).
Proof.
  cbv zeta. rewrite reset_unfold.
  pose proof (spawn_food_game fuel {| game := restarted (game w); rng := rng w |}) as Hgame.
  destruct (Engine._spawn_food fuel _) as [[f|e|] w2]; fields; by rewrite Hgame.
Qed.

Lemma play_cons fuel a rest w :
  play fuel (a :: rest) w =
    match act fuel a w with
    | (Ok _, w') => play fuel rest w'
    | (Raise e, w') => (Raise e, w')
    | (OutOfFuel, w') => (OutOfFuel, w')
    end.
Proof. reflexivity. Qed.

(** What [reset] establishes and every call keeps, holds after any sequence
    of calls that starts with [reset]. *)
Lemma play_from_restart (Q P : SnakeGame → Prop) fuel :
  (∀ w, Q (game w) → P (game (Engine.reset fuel w).2)) →
  (∀ a w, P (game w) → P (game (act fuel a w).2)) →
  ∀ actions w, Q (game w) → P (game (play fuel (Restart :: actions) w).2).
Proof.
  intros Hreset Hact actions w HQ.
  rewrite play_cons. cbn [act].
  specialize (Hreset w HQ).
  destruct (Engine.reset fuel w) as [[[]|e|] w0]; [|done..].
  cbn [snd] in Hreset. clear HQ w.
  revert w0 Hreset. induction actions as [|a rest IH]; intros w HP; [done|].
  rewrite play_cons. specialize (Hact a w HP).
  destruct (act fuel a w) as [[[]|e|] w']; [|done..].
  by apply IH.
Qed.

(** X8: the score counts the growth: after any sequence of [update],
    [toggle_pause] and [reset] calls that starts with [reset], the score is
    10 times the number of cells the snake has gained over its initial three,
    also when the sequence ends in an exception or in a food loop that does
    not return. *)
Theorem score_counts_growth fuel actions w :
  let s := game (play fuel (Restart :: actions) w).2 in
  score s = 10 * (Z.of_nat (length (snake s)) - 3).
Proof.
  cbv zeta.
  apply (play_from_restart (λ _, True)
           (λ s, score s = 10 * (Z.of_nat (length (snake s)) - 3))); [| |done].
  - intros w0 _. by destruct (reset_state fuel w0) as (-> & -> & _).
  - intros [c|] w0 Hs; cbn [act].
    + by apply (effect_score _ _ _ (perform_effect fuel c w0)).
    + by destruct (reset_state fuel w0) as (-> & -> & _).
Qed.

(** X9: the snake is always a simple path: after any sequence of calls that
    starts with [reset] it has at least three cells, no cell occurs twice,
    and every cell shares a side with the next one. *)
Theorem snake_is_a_simple_path fuel actions w :
  simple_path (snake (game (play fuel (Restart :: actions) w).2)).
Proof.
  apply (play_from_restart (λ _, True) (λ s, simple_path (snake s))); [| |done].
  - intros w0 _. destruct (reset_state fuel w0) as (-> & _).
    apply initial_snake_simple_path.
  - intros [c|] w0 Hs; cbn [act].
    + by apply (effect_simple_path _ _ _ (perform_effect fuel c w0)).
    + destruct (reset_state fuel w0) as (-> & _).
      apply initial_snake_simple_path.
Qed.

Lemma in_grid_same s s' c :
  grid_width s' = grid_width s → grid_height s' = grid_height s →
  in_grid s c → in_grid s' c.
Proof. unfold in_grid. by intros -> ->. Qed.

Lemma effect_inside s s' r :
  effect s s' r →
  Forall (in_grid s) (snake s) → Forall (in_grid s) (snake s').
Proof.
  intros Heff Hall.
  destruct Heff as [Hs _ _|nh hd rs _ _ Hin _ _ Hs _ _
                    |nh hd rs _ _ Hin _ _ Hs _ _ _
                    |nh hd rs _ _ Hin _ _ Hs _ _|_ Hs _ _];
    rewrite Hs; try done.
  - apply Forall_cons. split; [done|].
    rewrite removelast_take. by apply Forall_take.
  - by apply Forall_cons.
  - by apply Forall_cons.
Qed.

Lemma initial_snake_inside s :
  4 <= grid_width s → 1 <= grid_height s →
  Forall (in_grid s) (initial_snake (grid_width s) (grid_height s)).
Proof.
  intros Hw Hh. unfold initial_snake, in_grid. cbv zeta.
  pose proof (Z.div_mod (grid_width s) 2 ltac:(lia)).
  pose proof (Z.mod_pos_bound (grid_width s) 2 ltac:(lia)).
  pose proof (Z.div_mod (grid_height s) 2 ltac:(lia)).
  pose proof (Z.mod_pos_bound (grid_height s) 2 ltac:(lia)).
  repeat (apply Forall_cons; split); [..|done]; cbn [fst snd]; lia.
Qed.

(** X10: on a grid at least 4 cells wide and 1 cell high, every cell of the
    snake is a cell of the grid after any sequence of calls that starts with
    [reset]. *)
Theorem snake_stays_in_grid fuel actions w :
  4 <= grid_width (game w) → 1 <= grid_height (game w) →
  let s := game (play fuel (Restart :: actions) w).2 in
  Forall (in_grid s) (snake s).
Proof.
  intros Hw Hh. cbv zeta.
  apply (play_from_restart
           (λ s, 4 <= grid_width s ∧ 1 <= grid_height s)
           (λ s, (4 <= grid_width s ∧ 1 <= grid_height s) ∧
                 Forall (in_grid s) (snake s))); [| |done].
  - intros w0 [Hw0 Hh0].
    destruct (reset_state fuel w0) as (Hs & _ & Hgw & Hgh).
    split; [lia|]. rewrite Hs, <- Hgw, <- Hgh.
    apply initial_snake_inside; lia.
  - intros [c|] w0 [[Hw0 Hh0] Hall]; cbn [act].
    + destruct (perform_grid fuel c w0) as [Hgw Hgh].
      split; [lia|].
      eapply Forall_impl; [apply (effect_inside _ _ _ (perform_effect fuel c w0) Hall)|].
      intros c0. by apply in_grid_same.
    + destruct (reset_state fuel w0) as (Hs & _ & Hgw & Hgh).
      split; [lia|]. rewrite Hs, <- Hgw, <- Hgh.
      apply initial_snake_inside; lia.
Qed.

(** The default 20x20 board: a restart, a turn up and 60 boosted updates,
    which run the snake into the top wall. *)
Lemma snake_stays_in_grid_witness :
  let s := game (play 5 (Restart :: replicate 60 (Call (Update (Some UP) true))) unset).2 in
  game_over s = true ∧ Forall (in_grid s) (snake s).
Proof.
  split; [vm_compute; reflexivity|].
  apply (snake_stays_in_grid 5 (replicate 60 (Call (Update (Some UP) true))) unset);
    vm_compute; discriminate.
Defined.

Lemma act_grid fuel a w :
  grid_width (game (act fuel a w).2) = grid_width (game w) ∧
  grid_height (game (act fuel a w).2) = grid_height (game w).
Proof.
  destruct a as [c|]; cbn [act]; [apply perform_grid|].
  by destruct (reset_state fuel w) as (_ & _ & -> & ->).
Qed.

Lemma reset_no_raise fuel w e :
  0 < grid_width (game w) → 0 < grid_height (game w) →
  (Engine.reset fuel w).1 ≠ Raise e.
Proof.
  intros Hw Hh. rewrite reset_unfold.
  pose proof (spawn_food_no_raise fuel
                {| game := restarted (game w); rng := rng w |} e Hw Hh) as Hraise.
  destruct (Engine._spawn_food fuel _) as [[f|e'|] w2]; [done| |done].
  cbn [fst] in *. congruence.
Qed.

Lemma act_no_raise fuel a w e :
  0 < grid_width (game w) → 0 < grid_height (game w) →
  simple_path (snake (game w)) →
  (act fuel a w).1 ≠ Raise e.
Proof.
  intros Hw Hh (Hlen & _) Hraise. destruct a as [c|]; cbn [act] in Hraise.
  - pose proof (perform_effect fuel c w) as Heff. rewrite Hraise in Heff.
    inversion Heff as [| | | |Hempty]. rewrite Hempty in Hlen. cbn in Hlen. lia.
  - by apply (reset_no_raise fuel w e).
Qed.

Lemma act_simple_path fuel a w :
  simple_path (snake (game w)) → simple_path (snake (game (act fuel a w).2)).
Proof.
  intros Hs. destruct a as [c|]; cbn [act].
  - by apply (effect_simple_path _ _ _ (perform_effect fuel c w)).
  - destruct (reset_state fuel w) as (-> & _). apply initial_snake_simple_path.
Qed.

Lemma play_no_raise fuel e actions : ∀ w,
  0 < grid_width (game w) → 0 < grid_height (game w) →
  simple_path (snake (game w)) →
  (play fuel actions w).1 ≠ Raise e.
Proof.
  induction actions as [|a rest IH]; intros w Hw Hh Hs; [done|].
  rewrite play_cons.
  pose proof (act_no_raise fuel a w e Hw Hh Hs) as Hraise.
  pose proof (act_simple_path fuel a w Hs) as Hs'.
  destruct (act_grid fuel a w) as [Hgw Hgh].
  destruct (act fuel a w) as [[[]|e'|] w']; cbn [fst snd] in *; [|congruence|done].
  apply IH; [lia|lia|done].
Qed.

(** X11: on a grid with positive dimensions no sequence of [update],
    [toggle_pause] and [reset] calls that starts with [reset] raises an
    exception: [update] never finds the snake empty and [random.randint]
    never gets an empty range. *)
Theorem play_never_raises fuel actions w e :
  0 < grid_width (game w) → 0 < grid_height (game w) →
  (play fuel (Restart :: actions) w).1 ≠ Raise e.
Proof.
  intros Hw Hh. rewrite play_cons. cbn [act].
  pose proof (reset_no_raise fuel w e Hw Hh) as Hraise.
  destruct (reset_state fuel w) as (Hs & _ & Hgw & Hgh).
  destruct (Engine.reset fuel w) as [[[]|e'|] w0]; cbn [fst snd] in *; [|congruence|done].
  apply play_no_raise; [lia|lia|].
  rewrite Hs. apply initial_snake_simple_path.
Qed.

(** A 1x1 grid passes the hypotheses: the loop of the first food does not
    return, and nothing is raised. *)
Lemma play_never_raises_witness :
  (play 50 [Restart; Call (Update None false)]
     {| game := seeded 1 1 20; rng := counting |}).1 = OutOfFuel ∧
  (play 50 [Restart; Call (Update None false)]
     {| game := seeded 1 1 20; rng := counting |}).1 ≠ Raise ValueError.
Proof.
  split; [vm_compute; reflexivity|].
  apply (play_never_raises 50 [Call (Update None false)]
           {| game := seeded 1 1 20; rng := counting |}); vm_compute; reflexivity.
Defined.

Lemma effect_fed s s' r :
  effect s s' r → r = Ok tt → fed_ok s → in_grid s (food s') ∧ food s' ∉ snake s'.
Proof.
  intros Heff Hr [Hin Hoff].
  destruct Heff as [Hs _ Hf|nh hd rs _ _ _ _ Hne Hs _ Hf
                    |nh hd rs _ _ _ _ _ Hs _ Hin' Hoff'
                    |nh hd rs _ _ _ _ _ Hs _ Hf|_ Hs _ Hf]; try done.
  - by rewrite Hs, Hf.
  - rewrite Hs, Hf. split; [done|].
    apply not_elem_of_cons. split; [done|].
    intros Hmem. by apply Hoff, (removelast_subseteq (snake s)).
Qed.

Lemma reset_fed fuel w :
  0 < grid_width (game w) → 0 < grid_height (game w) →
  (Engine.reset fuel w).1 = Ok tt → fed_ok (game (Engine.reset fuel w).2).
Proof.
  intros Hw Hh. rewrite reset_unfold.
  set (w1 := {| game := restarted (game w); rng := rng w |}).
  pose proof (spawn_food_game fuel w1) as Hgame.
  pose proof (spawn_food_ok fuel w1) as Hok.
  destruct (Engine._spawn_food fuel w1) as [[f|e|] w2]; [|done..].
  intros _. destruct (Hok f Hw Hh eq_refl) as [Hin Hoff].
  cbn [fst snd] in *. unfold fed_ok, in_grid in *. fields. by rewrite Hgame.
Qed.

Lemma act_fed fuel a w :
  0 < grid_width (game w) → 0 < grid_height (game w) →
  (act fuel a w).1 = Ok tt → fed_ok (game w) → fed_ok (game (act fuel a w).2).
Proof.
  intros Hw Hh Hok Hfed. destruct a as [c|]; cbn [act] in *.
  - destruct (perform_grid fuel c w) as [Hgw Hgh].
    destruct (effect_fed _ _ _ (perform_effect fuel c w) Hok Hfed) as [Hin Hoff].
    split; [|done]. by apply (in_grid_same (game w)).
  - by apply reset_fed.
Qed.

Lemma play_fed fuel actions : ∀ w,
  0 < grid_width (game w) → 0 < grid_height (game w) →
  (play fuel actions w).1 = Ok tt → fed_ok (game w) →
  fed_ok (game (play fuel actions w).2).
Proof.
  induction actions as [|a rest IH]; intros w Hw Hh Hok Hfed; [done|].
  rewrite play_cons in *.
  pose proof (act_fed fuel a w Hw Hh) as Hact.
  destruct (act_grid fuel a w) as [Hgw Hgh].
  destruct (act fuel a w) as [[[]|e|] w']; cbn [fst snd] in *; [|done..].
  apply IH; [lia|lia|done|by apply Hact].
Qed.

(** X12: the food is never under the snake: on a grid with positive
    dimensions, when a sequence of calls that starts with [reset] returns,
    the food cell is a cell of the grid and no cell of the snake. *)
Theorem food_is_off_the_snake fuel actions w :
  0 < grid_width (game w) → 0 < grid_height (game w) →
  (play fuel (Restart :: actions) w).1 = Ok tt →
  fed_ok (game (play fuel (Restart :: actions) w).2).
Proof.
  intros Hw Hh. rewrite play_cons. cbn [act].
  pose proof (reset_fed fuel w Hw Hh) as Hfed.
  destruct (reset_state fuel w) as (_ & _ & Hgw & Hgh).
  destruct (Engine.reset fuel w) as [[[]|e|] w0]; cbn [fst snd] in *; [|done..].
  intros Hok. apply play_fed; [lia|lia|done|by apply Hfed].
Qed.

(** The snake eats once on its way: restart, then 25 boosted updates to the
    right on a board whose first food is drawn at (13, 10). *)
Lemma food_is_off_the_snake_witness :
  let w := {| game := playing [] RIGHT RIGHT (0, 0);
              rng := {| entropy := λ n, (13 + 17 * n)%nat; calls := 0 |} |} in
  let out := play 5 (Restart :: replicate 25 (Call (Update None true))) w in
  score (game out.2) = 10 ∧ fed_ok (game out.2).
Proof.
  split; [vm_compute; reflexivity|].
  apply (food_is_off_the_snake 5 (replicate 25 (Call (Update None true)))
           {| game := playing [] RIGHT RIGHT (0, 0);
              rng := {| entropy := λ n, (13 + 17 * n)%nat; calls := 0 |} |});
    vm_compute; reflexivity.
Defined.

(** ** The game engine: food spawn in full *)

(** X13: [_spawn_food] returns the first drawn cell that is not under the
    snake and has then taken exactly two draws per cell it looked at. *)
Theorem spawn_food_first_free fuel : ∀ w k,
  0 < grid_width (game w) → 0 < grid_height (game w) →
  (k < fuel)%nat →
  candidate (game w) (rng w) k ∉ snake (game w) →
  (∀ j, (j < k)%nat → candidate (game w) (rng w) j ∈ snake (game w)) →
  Engine._spawn_food fuel w =
    (Ok (candidate (game w) (rng w) k),
     {| game := game w;
        rng := {| entropy := entropy (rng w);
                  calls := (calls (rng w) + 2 * S k)%nat |} |}).
Proof.
  induction fuel as [|fuel IH]; intros w k Hw Hh Hk Hfree Hbusy; [lia|].
  rewrite spawn_food_step by done. cbv zeta.
  destruct k as [|k].
  - rewrite bool_decide_eq_true_2 by done.
    by replace (calls (rng w) + 2 * 1)%nat with (S (S (calls (rng w)))) by lia.
  - rewrite bool_decide_eq_false_2 by (intros Hn; apply Hn, Hbusy; lia).
    rewrite (IH _ k); cbn [game rng entropy calls]; try done; try lia.
    + rewrite candidate_shift.
      replace (S (S (calls (rng w))) + 2 * S k)%nat
        with (calls (rng w) + 2 * S (S k))%nat by lia.
      by destruct (rng w).
    + rewrite candidate_shift. by destruct (rng w).
    + intros j Hj. rewrite candidate_shift.
      specialize (Hbusy (S j) ltac:(lia)). by destruct (rng w).
Qed.

(** On a 3x1 grid the draws 0, 1, 2, ... give (0, 0), under the snake, and
    then (2, 0). *)
Lemma spawn_food_first_free_witness :
  Engine._spawn_food 5 {| game := seeded 3 1 20; rng := counting |} =
    (Ok (2, 0), {| game := seeded 3 1 20; rng := {| entropy := λ n, n; calls := 4 |} |}).
Proof.
  rewrite (spawn_food_first_free 5 {| game := seeded 3 1 20; rng := counting |} 1).
  - reflexivity.
  - reflexivity.
  - reflexivity.
  - lia.
  - compute_done.
  - intros j Hj. assert (j = 0%nat) as -> by lia. compute_done.
Defined.

(** ** The game engine: pause, game over and the step counter *)

Lemma perform_game_over fuel c w :
  game_over (game w) = true → perform fuel c w = (Ok tt, w).
Proof.
  intros Hover. destruct c as [cmd boost|]; cbn [perform].
  - by rewrite update_unfold, Hover.
  - unfold Engine.toggle_pause, bind, get_self, ret. by rewrite Hover.
Qed.

(** X14: game over is terminal for [update] and [toggle_pause]: once the
    flag is set, any sequence of these calls returns and leaves the whole
    object (and the random module) exactly as it was. *)
Theorem game_over_is_terminal fuel calls w :
  game_over (game w) = true →
  play fuel (map Call calls) w = (Ok tt, w) ∧
  Forall (λ w', w' = w) (run_calls fuel calls w).
Proof.
  intros Hover. split.
  - induction calls as [|c rest IH]; [done|].
    cbn [map]. rewrite play_cons. cbn [act].
    by rewrite perform_game_over.
  - induction calls as [|c rest IH]; [done|].
    cbn [run_calls]. rewrite perform_game_over by done.
    by apply Forall_cons.
Qed.

(** The curled snake has hit its tail; nothing moves it any more. *)
Lemma game_over_is_terminal_witness :
  let w := (Engine._move_snake 5 curled).2 in
  play 5 [Call (Update (Some UP) true); Call TogglePause; Call (Update None false)] w
    = (Ok tt, w).
Proof.
  apply (game_over_is_terminal 5
           [Update (Some UP) true; TogglePause; Update None false]
           (Engine._move_snake 5 curled).2).
  vm_compute. reflexivity.
Defined.

Lemma update_paused fuel cmd boost w :
  paused (game w) = true → Engine.update fuel cmd boost w = (Ok tt, w).
Proof.
  intros Hp. rewrite update_unfold, Hp. by rewrite orb_true_r.
Qed.

Lemma play_updates_paused fuel us : ∀ w,
  paused (game w) = true → play fuel (updates us ++ [Call TogglePause]) w =
                           play fuel [Call TogglePause] w.
Proof.
  induction us as [|u rest IH]; intros w Hp; [done|].
  cbn [updates map app]. rewrite play_cons. cbn [act perform].
  rewrite update_paused by done. by apply IH.
Qed.

(** X15: pausing freezes the game: on a game that is neither over nor
    paused, [toggle_pause], then any number of [update] calls with any
    commands, then [toggle_pause] again leave the object exactly as it was
    before the first call. *)
Theorem pause_then_resume_is_identity fuel us w :
  game_over (game w) = false →
  paused (game w) = false →
  play fuel (Call TogglePause :: updates us ++ [Call TogglePause]) w = (Ok tt, w).
Proof.
  intros Hover Hp. rewrite play_cons. cbn [act perform].
  unfold Engine.toggle_pause at 1, bind, get_self, modify, ret.
  rewrite Hover, Hp. cbn [negb].
  rewrite play_updates_paused by done.
  rewrite play_cons. cbn [act perform play].
  unfold Engine.toggle_pause, bind, get_self, modify, ret. fields.
  rewrite Hover. cbn [negb]. fields.
  destruct w as [self r]. destruct self. cbn in *. by subst.
Qed.

(** The snake about to eat is paused for three updates and resumed. *)
Lemma pause_then_resume_is_identity_witness :
  play 5 (Call TogglePause ::
          updates [(Some UP, true); (None, false); (Some DOWN, true)] ++ [Call TogglePause])
       about_to_eat = (Ok tt, about_to_eat).
Proof.
  apply (pause_then_resume_is_identity 5
           [(Some UP, true); (None, false); (Some DOWN, true)] about_to_eat);
    reflexivity.
Defined.

(** Updates at which no step is due only count and buffer the command. *)
Lemma play_idle fuel us : ∀ w,
  game_over (game w) = false →
  paused (game w) = false →
  Forall (λ u : option Direction * bool,
            speed_counter (game w) + Z.of_nat (length us) <
               if u.2 then boost_speed (game w) else base_speed (game w)) us →
  play fuel (updates us) w =
    (Ok tt,
     {| game := Engine.set_speed_counter (speed_counter (game w) + Z.of_nat (length us))
                  (Engine.set_next_direction (staged_after (game w) us.*1) (game w));
        rng := rng w |}).
Proof.
  induction us as [|[cmd boost] rest IH]; intros w Hover Hp Hslow.
  - cbn. rewrite Z.add_0_r. destruct w as [self r]. by destruct self.
  - apply Forall_cons in Hslow as [Hfirst Hslow].
    cbn [updates map length fst snd] in *. rewrite play_cons. cbn [act perform fst snd].
    rewrite update_unfold, Hover, Hp. cbn [orb]. cbv zeta.
    destruct (Z.leb_spec (if boost then boost_speed (game w) else base_speed (game w))
                (speed_counter (game w) + 1)) as [Hdue|_]; [lia|].
    fold (updates rest). rewrite IH; fields; try done.
    + unfold staged_after, buffered. fields.
      cbn [fmap list_fmap foldl fst].
      replace (speed_counter (game w) + 1 + Z.of_nat (length rest))
        with (speed_counter (game w) + Z.of_nat (S (length rest))) by lia.
      reflexivity.
    + eapply Forall_impl; [exact Hslow|]. intros u Hu. cbn beta in *. lia.
Qed.

(** X16: between two movement steps nothing moves: on a running game, a run
    of [update] calls that stays below the speed threshold of each call
    (10 without boost, 5 with) returns, advances the step counter by one per
    call and buffers the last accepted command; snake, food, score, the
    committed direction, the flags and the random module are unchanged. *)
Theorem no_step_before_due fuel us w :
  game_over (game w) = false →
  paused (game w) = false →
  Forall (λ u : option Direction * bool,
            speed_counter (game w) + Z.of_nat (length us) <
               if u.2 then boost_speed (game w) else base_speed (game w)) us →
  let out := play fuel (updates us) w in
  out.1 = Ok tt ∧
  snake (game out.2) = snake (game w) ∧
  food (game out.2) = food (game w) ∧
  score (game out.2) = score (game w) ∧
  direction (game out.2) = direction (game w) ∧
  game_over (game out.2) = false ∧
  paused (game out.2) = false ∧
  speed_counter (game out.2) = speed_counter (game w) + Z.of_nat (length us) ∧
  next_direction (game out.2) = staged_after (game w) us.*1 ∧
  rng out.2 = rng w.
Proof.
  intros Hover Hp Hslow. cbv zeta. rewrite play_idle by done. by fields.
Qed.

(** Nine plain updates of the snake that is about to eat: it has not eaten. *)
Lemma no_step_before_due_witness :
  let out := play 5 (updates (replicate 9 (Some UP, false))) about_to_eat in
  snake (game out.2) = [(10, 10); (9, 10); (8, 10)] ∧
  speed_counter (game out.2) = 9 ∧ next_direction (game out.2) = UP.
Proof.
  destruct (no_step_before_due 5 (replicate 9 (Some UP, false)) about_to_eat)
    as (_ & Hsnake & _ & _ & _ & _ & _ & Hcount & Hnext & _).
  - reflexivity.
  - reflexivity.
  - apply Forall_replicate. vm_compute. reflexivity.
  - cbv zeta. rewrite Hsnake, Hcount, Hnext. by vm_compute.
Defined.

Lemma play_app fuel l1 : ∀ l2 w,
  play fuel (l1 ++ l2) w =
    match play fuel l1 w with
    | (Ok _, w') => play fuel l2 w'
    | (Raise e, w') => (Raise e, w')
    | (OutOfFuel, w') => (OutOfFuel, w')
    end.
Proof.
  induction l1 as [|a l1 IH]; intros l2 w; [done|].
  cbn [app]. rewrite !play_cons.
  destruct (act fuel a w) as [[[]|e|] w']; [|done..].
  apply IH.
Qed.

Lemma staged_after_sideways self cmds :
  direction self = RIGHT → next_direction self = RIGHT →
  Forall (λ c, c ≠ Some UP ∧ c ≠ Some DOWN) cmds →
  staged_after self cmds = RIGHT.
Proof.
  intros Hd Hn Hside. unfold staged_after. rewrite Hd, Hn. clear Hd Hn.
  induction Hside as [|cmd rest [Hup Hdown] _ IH]; [done|].
  cbn [foldl].
  destruct cmd as [[]|]; try done.
Qed.

Lemma fst_plain (cmds : list (option Direction)) :
  (map (λ c, (c, false)) cmds).*1 = cmds.
Proof. induction cmds as [|c rest IH]; [done|]. cbn. by rewrite IH. Qed.

(** X17: the first step after construction: on a grid at least 3 cells wide
    and 1 high, when the first food is not the cell in front of the head,
    ten [update] calls without boost whose commands are RIGHT, LEFT or None
    make exactly one step: the snake ends one cell to the right of where
    [__init__] put it, with its three cells, score 0 and no game over. *)
Theorem first_step_after_construction
    fuel0 fuel grid_width grid_height cell_size r r1 g cmds :
  (Engine.init fuel0 grid_width grid_height cell_size r).1 = Ok g →
  3 <= grid_width → 1 <= grid_height →
  length cmds = 10%nat →
  Forall (λ c, c ≠ Some UP ∧ c ≠ Some DOWN) cmds →
  food g ≠ (grid_width `div` 2 + 1, grid_height `div` 2) →
  let out := play fuel (updates (map (λ c, (c, false)) cmds)) {| game := g; rng := r1 |} in
  out.1 = Ok tt ∧
  snake (game out.2) =
    [(grid_width `div` 2 + 1, grid_height `div` 2);
     (grid_width `div` 2, grid_height `div` 2);
     (grid_width `div` 2 - 1, grid_height `div` 2)] ∧
  score (game out.2) = 0 ∧
  game_over (game out.2) = false ∧
  speed_counter (game out.2) = 0.
Proof.
  intros Hinit Hw Hh Hlen Hside Hfood. cbv zeta.
  rewrite init_spawn in Hinit.
  destruct (Engine._spawn_food fuel0 _).1 as [f| |] eqn:Hspawn; [|done..].
  injection Hinit as <-. fields.
  destruct (decide (cmds = [])) as [->|Hne]; [done|].
  destruct (exists_last Hne) as (before & final & ->).
  rewrite length_app in Hlen. cbn [length] in Hlen.
  apply Forall_app in Hside as [Hbefore Hfinal].
  apply Forall_singleton in Hfinal as [Hup Hdown].
  set (cx := grid_width `div` 2) in *. set (cy := grid_height `div` 2) in *.
  assert (Hcx : 0 <= cx ∧ cx + 1 < grid_width).
  { subst cx. pose proof (Z.div_mod grid_width 2 ltac:(lia)).
    pose proof (Z.mod_pos_bound grid_width 2 ltac:(lia)). lia. }
  assert (Hcy : 0 <= cy < grid_height).
  { subst cy. pose proof (Z.div_mod grid_height 2 ltac:(lia)).
    pose proof (Z.mod_pos_bound grid_height 2 ltac:(lia)). lia. }
  enough (∃ w', play fuel (updates (map (λ c, (c, false)) (before ++ [final])))
                  {| game := Engine.set_speed_counter 0
                               (Engine.set_speeds 10 5
                                  (Engine.set_food f
                                     (seeded grid_width grid_height cell_size)));
                     rng := r1 |} = (Ok tt, w') ∧
                snake (game w') = [(cx + 1, cy); (cx, cy); (cx - 1, cy)] ∧
                score (game w') = 0 ∧ game_over (game w') = false ∧
                speed_counter (game w') = 0) as (w' & -> & ?); [done|].
  eexists. split.
  - replace (updates (map (λ c, (c, false)) (before ++ [final])))
      with (updates (map (λ c, (c, false)) before) ++ [Call (Update final false)])
      by (unfold updates; by rewrite !map_app).
    rewrite play_app, play_idle; fields; try done; cycle 1.
    { rewrite length_map. apply Forall_forall. intros [c b] Hin.
      apply list_elem_of_In, in_map_iff in Hin as (c' & [= <- <-] & _). cbn. lia. }
    rewrite length_map, fst_plain.
    rewrite staged_after_sideways by done.
    rewrite play_cons. cbn [act perform play].
    rewrite update_unfold. fields. cbn [orb]. cbv zeta.
    replace (0 + Z.of_nat (length before) + 1) with 10 by lia.
    cbn [Z.leb Z.compare Pos.compare Pos.compare_cont].
    rewrite move_snake_unfold. unfold new_head_of, buffered, seeded. fields.
    assert (Hnext : (match final with
                     | Some d => if bool_decide (d ≠ opposite RIGHT) then d else RIGHT
                     | None => RIGHT
                     end) = RIGHT).
    { destruct final as [[]|]; done. }
    rewrite Hnext. unfold initial_snake. cbn [Engine.direction_map]. cbv zeta.
    fold cx cy. rewrite Z.add_0_r.
    rewrite bool_decide_eq_true_2 by (unfold in_grid; fields; lia).
    rewrite bool_decide_eq_false_2; cycle 1.
    { rewrite !elem_of_cons, elem_of_nil.
      intros [H|[H|[H|[]]]]; injection H; lia. }
    rewrite bool_decide_eq_false_2 by done.
    cbn [bind ret]. reflexivity.
  - by fields.
Qed.

(** The default game of main.py, ten updates asking for RIGHT. *)
Lemma first_step_after_construction_witness :
  let g := Engine.set_speed_counter 0
             (Engine.set_speeds 10 5 (Engine.set_food (0, 1) (seeded 20 20 20))) in
  (Engine.init 5 20 20 20 counting).1 = Ok g ∧
  snake (game (play 5 (updates (map (λ c, (c, false)) (replicate 10 (Some RIGHT))))
                 {| game := g; rng := counting |}).2)
    = [(11, 10); (10, 10); (9, 10)].
Proof.
  split; [vm_compute; reflexivity|].
  destruct (first_step_after_construction 5 5 20 20 20 counting counting
              (Engine.set_speed_counter 0
                 (Engine.set_speeds 10 5 (Engine.set_food (0, 1) (seeded 20 20 20))))
              (replicate 10 (Some RIGHT))) as (_ & Hsnake & _).
  - vm_compute. reflexivity.
  - lia.
  - lia.
  - reflexivity.
  - apply Forall_replicate. by split.
  - vm_compute. discriminate.
  - exact Hsnake.
Defined.

(** X18: what [reset] leaves behind when it returns on a grid with positive
    dimensions: the three initial cells, direction and buffered direction
    RIGHT, score 0, both flags cleared and a food cell of the grid that is
    not under the snake.  The grid, the cell size, the two speeds and the
    step counter are not touched: a restart does not restart the count
    towards the next step. *)
Theorem reset_gives_a_fresh_game fuel w :
  0 < grid_width (game w) → 0 < grid_height (game w) →
  (Engine.reset fuel w).1 = Ok tt →
  let s := game w in
  let s' := game (Engine.reset fuel w).2 in
  snake s' = initial_snake (grid_width s) (grid_height s) ∧
  direction s' = RIGHT ∧ next_direction s' = RIGHT ∧
  score s' = 0 ∧ game_over s' = false ∧ paused s' = false ∧
  fed_ok s' ∧
  grid_width s' = grid_width s ∧ grid_height s' = grid_height s ∧
  cell_size s' = cell_size s ∧
  base_speed s' = base_speed s ∧ boost_speed s' = boost_speed s ∧
  speed_counter s' = speed_counter s.
Proof.
  intros Hw Hh Hok. cbv zeta.
  pose proof (reset_fed fuel w Hw Hh Hok) as Hfed.
  revert Hok Hfed. rewrite reset_unfold.
  pose proof (spawn_food_game fuel {| game := restarted (game w); rng := rng w |}) as Hgame.
  destruct (Engine._spawn_food fuel _) as [[f|e|] w2]; [|done..].
  intros _ Hfed. fields. rewrite Hgame in *. by split_and!.
Qed.

(** A restart of the game that ended on its own tail, seven updates into
    the count. *)
Lemma reset_gives_a_fresh_game_witness :
  let w := {| game := Engine.set_speed_counter 7 (game (Engine._move_snake 5 curled).2);
              rng := counting |} in
  game_over (game w) = true ∧
  game_over (game (Engine.reset 5 w).2) = false ∧
  snake (game (Engine.reset 5 w).2) = [(10, 10); (9, 10); (8, 10)] ∧
  speed_counter (game (Engine.reset 5 w).2) = 7.
Proof.
  split; [vm_compute; reflexivity|].
  destruct (reset_gives_a_fresh_game 5
              {| game := Engine.set_speed_counter 7 (game (Engine._move_snake 5 curled).2);
                 rng := counting |})
    as (Hsnake & _ & _ & _ & Hover & _ & _ & _ & _ & _ & _ & _ & Hcount).
  - vm_compute. reflexivity.
  - vm_compute. reflexivity.
  - vm_compute. reflexivity.
  - cbv zeta. rewrite Hsnake, Hover, Hcount. by vm_compute.
Defined.

(** ** The game board on the screen *)

Lemma board_lookup_segment ui g i c :
  snake g !! i = Some c →
  UI._draw_game_board ui g !! S i =
    Some (rect (if bool_decide (i = 0%nat) then UI.GREEN else UI.DARK_GREEN)
               (UI.board_x ui g + c.1 * cell_size g)
               (UI.board_y ui g + c.2 * cell_size g)
               (cell_size g - 2) (cell_size g - 2)).
Proof.
  intros Hc. unfold UI._draw_game_board. cbv zeta.
  cbn [app]. rewrite lookup_cons.
  rewrite lookup_app_l by (rewrite length_imap; by eapply lookup_lt_Some).
  by rewrite list_lookup_imap, Hc.
Qed.

Lemma board_length ui g :
  length (UI._draw_game_board ui g) = S (S (length (snake g))).
Proof.
  unfold UI._draw_game_board. cbv zeta.
  rewrite !length_app, length_imap. cbn [length]. lia.
Qed.

(** X19: what [_draw_game_board] draws, in order: first the background, a
    (20, 20, 20) rectangle that is the board with a margin of 5 on each
    side; then one square per cell in snake order, the head GREEN and the
    others DARK_GREEN; last the food, a RED circle of radius
    cell_size // 2 - 2 around the middle of the food cell; nothing else.
    With a cell size of at least 0, the square of a cell of the grid lies
    within the board, and the squares of two different cells have no point
    in common; with a cell size of at least 4, the circle of a food in the
    grid lies within its cell and so within the board. *)
Theorem board_squares ui g :
  0 <= cell_size g →
  length (UI._draw_game_board ui g) = S (S (length (snake g))) ∧
  UI._draw_game_board ui g !! 0%nat =
    Some (rect (20, 20, 20) (UI.board_x ui g - 5) (UI.board_y ui g - 5)
               (grid_width g * cell_size g + 10) (grid_height g * cell_size g + 10)) ∧
  (∀ i c, snake g !! i = Some c →
     ∃ d, UI._draw_game_board ui g !! S i = Some d ∧
          d = rect (if bool_decide (i = 0%nat) then UI.GREEN else UI.DARK_GREEN)
                   (UI.board_x ui g + c.1 * cell_size g)
                   (UI.board_y ui g + c.2 * cell_size g)
                   (cell_size g - 2) (cell_size g - 2) ∧
          (in_grid g c → on_board ui g d)) ∧
  (∀ i j c c' d d',
     snake g !! i = Some c → snake g !! j = Some c' → c ≠ c' →
     UI._draw_game_board ui g !! S i = Some d →
     UI._draw_game_board ui g !! S j = Some d' →
     apart d d') ∧
  (∃ d, UI._draw_game_board ui g !! S (length (snake g)) = Some d ∧
        last (UI._draw_game_board ui g) = Some d ∧
        d = circle UI.RED
              (UI.board_x ui g + (food g).1 * cell_size g + cell_size g `div` 2,
               UI.board_y ui g + (food g).2 * cell_size g + cell_size g `div` 2)
              (cell_size g `div` 2 - 2) ∧
        (4 <= cell_size g →
         within (UI.board_x ui g + (food g).1 * cell_size g + 2)
                (UI.board_y ui g + (food g).2 * cell_size g + 2)
                (2 * (cell_size g `div` 2 - 2)) (2 * (cell_size g `div` 2 - 2))
                (UI.board_x ui g + (food g).1 * cell_size g)
                (UI.board_y ui g + (food g).2 * cell_size g)
                (cell_size g) (cell_size g) ∧
         (in_grid g (food g) → on_board ui g d))).
Proof.
  intros Hcell. split_and!.
  - apply board_length.
  - reflexivity.
  - intros i c Hc. eexists. split; [by apply board_lookup_segment|].
    split; [done|]. intros [Hx Hy]. unfold on_board. nia.
  - intros i j [cx cy] [cx' cy'] d d' Hi Hj Hne Hd Hd'.
    rewrite (board_lookup_segment ui g i _ Hi) in Hd.
    rewrite (board_lookup_segment ui g j _ Hj) in Hd'.
    injection Hd as <-. injection Hd' as <-.
    unfold apart. cbn [fst snd].
    assert (cx ≠ cx' ∨ cy ≠ cy') as [Hx|Hy].
    { destruct (decide (cx = cx')) as [->|]; [|by left].
      right. intros ->. by apply Hne. }
    + destruct (Z.lt_total cx cx') as [?|[?|?]]; [left|done|right; left]; nia.
    + destruct (Z.lt_total cy cy') as [?|[?|?]];
        [right; right; left|done|right; right; right]; nia.
  - eexists. split_and!.
    + unfold UI._draw_game_board. cbv zeta. cbn [app].
      rewrite lookup_cons, lookup_app_r by (rewrite length_imap; lia).
      rewrite length_imap, Nat.sub_diag. reflexivity.
    + unfold UI._draw_game_board. cbv zeta.
      rewrite app_assoc. apply last_snoc.
    + reflexivity.
    + intros Hfour.
      pose proof (Z.div_mod (cell_size g) 2 ltac:(lia)) as Hdiv.
      pose proof (Z.mod_pos_bound (cell_size g) 2 ltac:(lia)) as Hmod.
      split.
      * unfold within. lia.
      * intros [Hx Hy]. unfold on_board, within. cbn [fst snd]. nia.
Qed.

(** The window and game of main.py: the board starts at (150, 130), the
    background is drawn first, the head of the fresh snake at (350, 330) and
    the food (3, 4) last, as a circle of radius 8 around (220, 220). *)
Lemma board_squares_witness :
  let ui := {| window_width := 800; window_height := 600 |} in
  let g := playing [(10, 10); (9, 10); (8, 10)] RIGHT RIGHT (3, 4) in
  UI._draw_game_board ui g !! 0%nat = Some (rect (20, 20, 20) 145 125 410 410) ∧
  UI._draw_game_board ui g !! 1%nat = Some (rect UI.GREEN 350 330 18 18) ∧
  on_board ui g (rect UI.GREEN 350 330 18 18) ∧
  apart (rect UI.GREEN 350 330 18 18) (rect UI.DARK_GREEN 330 330 18 18) ∧
  last (UI._draw_game_board ui g) = Some (circle UI.RED (220, 220) 8) ∧
  on_board ui g (circle UI.RED (220, 220) 8).
Proof.
  intros ui g.
  destruct (board_squares ui g)
    as (_ & Hback & Hdraw & Hapart & d & _ & Hlast & -> & Hfood); [by vm_compute|].
  split_and!.
  - rewrite Hback. vm_compute. reflexivity.
  - vm_compute. reflexivity.
  - destruct (Hdraw 0%nat (10, 10)) as (d & Hd & -> & Hon); [reflexivity|].
    apply Hon. unfold in_grid. vm_compute. repeat split; discriminate.
  - apply (Hapart 0%nat 1%nat (10, 10) (9, 10)); try reflexivity. discriminate.
  - rewrite Hlast. vm_compute. reflexivity.
  - destruct Hfood as [_ Hon]; [vm_compute; discriminate|].
    apply Hon. unfold in_grid. vm_compute. repeat split; discriminate.
Defined.

(** ** The game loop *)

Section Loop.
Context `{Numpy}.

Lemma toggle_pause_game_over w :
  game_over (game w) = true → Engine.toggle_pause w = (Ok tt, w).
Proof. intros Hover. apply (perform_game_over 0 TogglePause w Hover). Qed.


(** X21: restart in the loop.  Once the game is over, a turn of the loop
    without SPACE leaves the game exactly as it was, whatever the gestures;
    with SPACE it resets the game and then the bridge: when [reset] returns,
    the game is the one [reset] made and the bridge has no direction, no
    pending pause, no boost and an empty position history. *)
Theorem loop_restarts_on_space fuel c head_pos keypoints :
  game_over (game (the_game c)) = true →
  the_game (Main.loop_body fuel c head_pos keypoints false).2 = the_game c ∧
  (Main.loop_body fuel c head_pos keypoints false).1 = Ok tt ∧
  ((Engine.reset fuel (the_game c)).1 = Ok tt →
   let out := Main.loop_body fuel c head_pos keypoints true in
   out.1 = Ok tt ∧
   the_game out.2 = (Engine.reset fuel (the_game c)).2 ∧
   current_direction (control_bridge out.2) = None ∧
   last_move_direction (control_bridge out.2) = None ∧
   pause_triggered (control_bridge out.2) = false ∧
   boost_active (control_bridge out.2) = false ∧
   position_history (gesture_recognizer (control_bridge out.2)) = []).
Proof.
  intros Hover.
  assert (Hturn : ∀ space,
            Main.loop_body fuel c head_pos keypoints space =
              let b2 := (Bridge.get_pause_trigger
                           (Bridge.update (control_bridge c) head_pos keypoints)).2 in
              if space then
                match Engine.reset fuel (the_game c) with
                | (Ok _, w2) => (Ok tt, {| control_bridge := Bridge.reset b2; the_game := w2 |})
                | (Raise e, w2) => (Raise e, {| control_bridge := b2; the_game := w2 |})
                | (OutOfFuel, w2) => (OutOfFuel, {| control_bridge := b2; the_game := w2 |})
                end
              else (Ok tt, {| control_bridge := b2; the_game := the_game c |})).
  { intros space. unfold Main.loop_body. cbv zeta.
    destruct (Bridge.get_pause_trigger _) as [trigger b2]. cbn [snd].
    unfold bind at 1 2.
    assert (Hpause : (if trigger then Engine.toggle_pause else ret tt) (the_game c)
                     = (Ok tt, the_game c)).
    { destruct trigger; [by apply toggle_pause_game_over|done]. }
    rewrite Hpause. unfold bind, get_self.
    assert (Hupd : (if negb (paused (game (the_game c)))
                    then Engine.update fuel
                           (Bridge.get_direction
                              (Bridge.update (control_bridge c) head_pos keypoints))
                           (Bridge.get_boost
                              (Bridge.update (control_bridge c) head_pos keypoints))
                    else ret tt) (the_game c) = (Ok tt, the_game c)).
    { destruct (negb _); [|done].
      apply (perform_game_over fuel (Update _ _) _ Hover). }
    rewrite Hupd, Hover. by rewrite andb_true_r. }
  split_and!.
  - by rewrite Hturn.
  - by rewrite Hturn.
  - intros Hok. cbv zeta. rewrite Hturn. cbv zeta.
    destruct (Engine.reset fuel (the_game c)) as [[[]|e|] w2]; [|done..].
    by split_and!.
Qed.

End Loop.


(** The game that ended on its own tail is restarted with SPACE. *)
Lemma loop_restarts_on_space_witness :
  let c := {| control_bridge := Bridge.init; the_game := (Engine._move_snake 5 curled).2 |} in
  let out := Main.loop_body 5 c (Some (320, 240)) None true in
  snake (game (the_game out.2)) = [(10, 10); (9, 10); (8, 10)] ∧
  game_over (game (the_game out.2)) = false ∧
  current_direction (control_bridge out.2) = None.
Proof.
  destruct (loop_restarts_on_space (H := Float64.numpy) 5
              {| control_bridge := Bridge.init; the_game := (Engine._move_snake 5 curled).2 |}
              (Some (320, 240)) None) as (_ & _ & Hspace); [vm_compute; reflexivity|].
  destruct Hspace as (_ & Hgame & Hdir & _); [vm_compute; reflexivity|].
  cbv zeta. rewrite Hgame, Hdir. by vm_compute.
Defined.

(** ** The classifier: dead zone and symmetry *)

(** X22: the dead zone and what a classification means: on a history of
    pixel samples, a displacement (newest minus oldest) that stays below the
    movement threshold on both axes is never classified; and a classified
    direction means the head moved at least the threshold in that direction
    and no further in any other. *)
Theorem classification_is_beyond_dead_zone g kp :
  Forall pixel (position_history g) →
  let v := displacement (position_history g) in
  (Z.max (Z.abs v.1) (Z.abs v.2) < movement_threshold g →
   (Gesture.get_direction g kp).1 = None) ∧
  (∀ d, (Gesture.get_direction g kp).1 = Some d →
        movement_threshold g <= along d v ∧ ∀ d', along d' v <= along d v).
Proof.
  intros Hpix. cbv zeta.
  destruct (Nat.ltb_spec (length (position_history g)) 3) as [Hshort|Hlen].
  { rewrite get_direction_short by done. by split. }
  unfold displacement.
  destruct (last (position_history g)) as [recent|] eqn:Hlast; cycle 1.
  { apply last_None in Hlast. rewrite Hlast in Hlen. cbn in Hlen. lia. }
  destruct (head (position_history g)) as [older|] eqn:Hhead; cycle 1.
  { apply head_None in Hhead. rewrite Hhead in Hlen. cbn in Hlen. lia. }
  rewrite (get_direction_exact g kp recent older) by done.
  cbv zeta. cbn [fst snd].
  set (dx := recent.1 - older.1). set (dy := recent.2 - older.2).
  split.
  - intros Hsmall.
    destruct (Z.ltb_spec (Z.abs dy) (Z.abs dx)).
    + destruct (Z.ltb_spec (Z.abs dx) (movement_threshold g)); [done|lia].
    + destruct (Z.ltb_spec (Z.abs dy) (movement_threshold g)); [done|lia].
  - intros d.
    destruct (Z.ltb_spec (Z.abs dy) (Z.abs dx)).
    + destruct (Z.ltb_spec (Z.abs dx) (movement_threshold g)); [done|].
      destruct (Z.ltb_spec 0 dx); intros [= <-];
        (split; [|intros []]); cbn [along fst snd]; lia.
    + destruct (Z.ltb_spec (Z.abs dy) (movement_threshold g)); [done|].
      destruct (Z.ltb_spec 0 dy); intros [= <-];
        (split; [|intros []]); cbn [along fst snd]; lia.
Qed.

(** A nod of 29 pixels is ignored, one of 45 pixels to the left is LEFT. *)
Lemma classification_is_beyond_dead_zone_witness :
  (Gesture.get_direction
     (Gesture.set_history [(100, 100); (90, 120); (100, 129)] Gesture.default) None).1 = None ∧
  30 <= along LEFT (displacement [(100, 100); (80, 90); (55, 110)]).
Proof.
  split.
  - apply (classification_is_beyond_dead_zone
             (Gesture.set_history [(100, 100); (90, 120); (100, 129)] Gesture.default) None).
    + repeat constructor; vm_compute; done.
    + vm_compute. reflexivity.
  - apply (classification_is_beyond_dead_zone
             (Gesture.set_history [(100, 100); (80, 90); (55, 110)] Gesture.default) None).
    + repeat constructor; vm_compute; done.
    + vm_compute. reflexivity.
Defined.

(** X23: the classifier is symmetric: with a positive movement threshold,
    the same pixel samples in reverse order are classified as the opposite
    direction, and as None when the original order is. *)
Theorem reversed_history_is_opposite g kp :
  0 < movement_threshold g →
  Forall pixel (position_history g) →
  (Gesture.get_direction (Gesture.set_history (reverse (position_history g)) g) kp).1 =
    opposite <$> (Gesture.get_direction g kp).1.
Proof.
  intros Hthr Hpix.
  set (g' := Gesture.set_history (reverse (position_history g)) g).
  assert (Hh' : position_history g' = reverse (position_history g)) by done.
  assert (Hpix' : Forall pixel (position_history g')).
  { rewrite Hh'. by apply Forall_reverse. }
  destruct (Nat.ltb_spec (length (position_history g)) 3) as [Hshort|Hlen].
  { rewrite !get_direction_short; [done..|]. by rewrite Hh', length_reverse. }
  destruct (last (position_history g)) as [recent|] eqn:Hlast; cycle 1.
  { apply last_None in Hlast. rewrite Hlast in Hlen. cbn in Hlen. lia. }
  destruct (head (position_history g)) as [older|] eqn:Hhead; cycle 1.
  { apply head_None in Hhead. rewrite Hhead in Hlen. cbn in Hlen. lia. }
  rewrite (get_direction_exact g kp recent older) by done.
  rewrite (get_direction_exact g' kp older recent); try done; cycle 1.
  { by rewrite Hh', length_reverse. }
  { by rewrite Hh', last_reverse. }
  { by rewrite Hh', head_reverse. }
  cbv zeta. change (movement_threshold g') with (movement_threshold g).
  set (dx := recent.1 - older.1). set (dy := recent.2 - older.2).
  replace (older.1 - recent.1) with (- dx) by (subst dx; lia).
  replace (older.2 - recent.2) with (- dy) by (subst dy; lia).
  rewrite !Z.abs_opp.
  destruct (Z.ltb_spec (Z.abs dy) (Z.abs dx)).
  - destruct (Z.ltb_spec (Z.abs dx) (movement_threshold g)); [done|].
    destruct (Z.ltb_spec 0 dx), (Z.ltb_spec 0 (- dx)); cbn; try done; lia.
  - destruct (Z.ltb_spec (Z.abs dy) (movement_threshold g)); [done|].
    destruct (Z.ltb_spec 0 dy), (Z.ltb_spec 0 (- dy)); cbn; try done; lia.
Qed.

(** A move down read backwards is a move up. *)
Lemma reversed_history_is_opposite_witness :
  let g := Gesture.set_history [(50, 50); (50, 60); (50, 90)] Gesture.default in
  (Gesture.get_direction g None).1 = Some DOWN ∧
  (Gesture.get_direction (Gesture.set_history (reverse (position_history g)) g) None).1
    = Some UP.
Proof.
  cbv zeta. split; [vm_compute; reflexivity|].
  rewrite reversed_history_is_opposite.
  - vm_compute. reflexivity.
  - vm_compute. reflexivity.
  - repeat constructor; vm_compute; done.
Defined.

(** ** The game engine: the last free cell *)

(** X24: eating the last free cell never returns: when the new head is the
    food cell and the grown snake covers every cell of the grid,
    [_move_snake] has grown the snake and raised the score, and its call of
    [_spawn_food] does not return, whatever is drawn and however long it
    runs. *)
Theorem eating_the_last_cell_hangs fuel w new_head :
  new_head_of (game w) = Some new_head →
  in_grid (game w) new_head →
  new_head ∉ snake (game w) →
  new_head = food (game w) →
  (∀ c, in_grid (game w) c → c ∈ new_head :: snake (game w)) →
  let out := Engine._move_snake fuel w in
  out.1 = OutOfFuel ∧
  snake (game out.2) = new_head :: snake (game w) ∧
  score (game out.2) = score (game w) + 10.
Proof.
  intros Hnh Hin Hoff Heat Hfull. cbv zeta.
  rewrite move_snake_unfold, Hnh. cbv zeta.
  rewrite !bool_decide_eq_true_2 by done.
  rewrite (bool_decide_eq_false_2 (new_head ∈ snake (game w))) by done.
  rewrite bool_decide_eq_true_2 by done.
  set (w1 := {| game := _; rng := rng w |}).
  assert (Hw : 0 < grid_width (game w) ∧ 0 < grid_height (game w))
    by (destruct Hin; lia).
  pose proof (spawn_food_hangs fuel w1 (proj1 Hw) (proj2 Hw) Hfull) as Hhang.
  pose proof (spawn_food_game fuel w1) as Hgame.
  destruct (Engine._spawn_food fuel w1) as [[f|e|] w2]; [done..|].
  cbn [fst snd] in *. by rewrite Hgame.
Qed.

(** A 2x2 grid with three cells taken: the snake eats the fourth. *)
Lemma eating_the_last_cell_hangs_witness :
  (Engine._move_snake 20
     {| game := Engine.set_snake [(0, 0); (0, 1); (1, 1)]
                  (Engine.set_food (1, 0) (seeded 2 2 20));
        rng := counting |}).1 = OutOfFuel.
Proof.
  apply (eating_the_last_cell_hangs 20
           {| game := Engine.set_snake [(0, 0); (0, 1); (1, 1)]
                        (Engine.set_food (1, 0) (seeded 2 2 20));
              rng := counting |} (1, 0)).
  - reflexivity.
  - unfold in_grid. vm_compute. repeat split; discriminate.
  - compute_done.
  - reflexivity.
  - intros [x y] [Hx Hy].
    cbn [game grid_width grid_height fst snd
         Engine.set_snake Engine.set_food seeded snake] in *.
    assert (x = 0 ∨ x = 1) as [-> | ->] by lia;
      (assert (y = 0 ∨ y = 1) as [-> | ->] by lia); compute_done.
Defined.
